(** * Authorization-API: the token lifecycle of [app.py]

    A shallow embedding of the request handlers of [src/app.py]
    ([login], [login_for_access_token], [verify_token], [refresh_token],
    [logout]) and of the helpers they call ([create_access_token],
    [update_token_in_DB], [get_user]), followed by the properties of the
    specification that concern them.

    The handlers talk to three collaborators that are not part of the
    repository: the JOSE library ([jose.jwt]), the password library
    ([passlib]) and the remote store reached with [requests].  They are
    kept abstract: the library functions are fields of the record [Lib],
    the remote store and the clock are fields of the record [world].
    Python values that come out of JSON are values of [json]; Python
    exceptions are values of [exn]; a handler is a computation in the
    monad [M], which records the remote calls it makes and ends either
    with a returned value or with a raised exception. *)

From Stdlib Require Import ZArith String List Ascii.
From Stdlib Require Import DecimalZ DecimalPos.
From stdpp Require Import base option list gmap strings fin_maps pretty.

Open Scope string_scope.
Open Scope list_scope.
Open Scope Z_scope.

Set Warnings "-register-all".

(** ** JSON values and Python truthiness *)

(** The values [json.loads] produces (floats are left out: no claim or
    record field of this service is produced as one). *)
Inductive json : Type :=
| JNull
| JBool (b : bool)
| JInt (z : Z)
| JStr (s : string)
| JArr (items : list json)
| JObj (fields : list (string * json)).

Fixpoint json_eq_dec (a b : json) {struct a} : {a = b} + {a <> b}.
Proof.
  refine (
    match a, b with
    | JNull, JNull => left eq_refl
    | JBool x, JBool y => if Bool.bool_dec x y then left _ else right _
    | JInt x, JInt y => if Z.eq_dec x y then left _ else right _
    | JStr x, JStr y => if string_dec x y then left _ else right _
    | JArr x, JArr y =>
        if (fix go (l l' : list json) {struct l} : {l = l'} + {l <> l'} :=
              match l, l' with
              | [], [] => left eq_refl
              | u :: us, v :: vs =>
                  match json_eq_dec u v with
                  | left e1 => match go us vs with
                               | left e2 => left _
                               | right n => right _
                               end
                  | right n => right _
                  end
              | [], _ :: _ => right _
              | _ :: _, [] => right _
              end) x y
        then left _ else right _
    | JObj x, JObj y =>
        if (fix go (l l' : list (string * json)) {struct l} : {l = l'} + {l <> l'} :=
              match l, l' with
              | [], [] => left eq_refl
              | (k, u) :: us, (k', v) :: vs =>
                  match string_dec k k' with
                  | left e0 =>
                      match json_eq_dec u v with
                      | left e1 => match go us vs with
                                   | left e2 => left _
                                   | right n => right _
                                   end
                      | right n => right _
                      end
                  | right n => right _
                  end
              | [], _ :: _ => right _
              | _ :: _, [] => right _
              end) x y
        then left _ else right _
    | _, _ => right _
    end); try congruence; try discriminate.
Defined.

#[global] Instance json_eq_decision : EqDecision json := json_eq_dec.

(** Python's [bool(v)]: what [if not v] tests. *)
Definition truthy (v : json) : bool :=
  match v with
  | JNull => false
  | JBool b => b
  | JInt z => negb (Z.eqb z 0)
  | JStr s => negb (String.eqb s "")
  | JArr items => match items with [] => false | _ => true end
  | JObj fields => match fields with [] => false | _ => true end
  end.

(** A Python [dict] with string keys whose values came out of JSON:
    the token payload and the user record of the store. *)
Abbreviation dict := (gmap string json).

(** Python's [d.get(k)]: the value, or [None] when the key is absent.
    Python's [None] and JSON's [null] are the same value. *)
Definition py_get (d : dict) (k : string) : json :=
  default JNull (d !! k).

(** ** Exceptions and outcomes *)

Inductive exn_class : Type :=
| cHTTPException
| cJWTError | cJWTClaimsError | cExpiredSignatureError | cJWSError
| cAttributeError | cKeyError | cTypeError | cValueError
| cJSONDecodeError | cRequestException | cPasslibError.

#[global] Instance exn_class_eq_decision : EqDecision exn_class.
Proof. solve_decision. Defined.

Inductive exn : Type :=
| HTTPException (status_code : Z) (detail : string) (headers : list (string * string))
| JWTError
| JWTClaimsError
| ExpiredSignatureError
| JWSError
| AttributeError (name : string)
| KeyError (key : string)
| TypeError
| ValueError
| JSONDecodeError
| RequestException
| PasslibError.

Definition class_of (e : exn) : exn_class :=
  match e with
  | HTTPException _ _ _ => cHTTPException
  | JWTError => cJWTError
  | JWTClaimsError => cJWTClaimsError
  | ExpiredSignatureError => cExpiredSignatureError
  | JWSError => cJWSError
  | AttributeError _ => cAttributeError
  | KeyError _ => cKeyError
  | TypeError => cTypeError
  | ValueError => cValueError
  | JSONDecodeError => cJSONDecodeError
  | RequestException => cRequestException
  | PasslibError => cPasslibError
  end.

(** [issubclass c d] for the classes above: in [jose.exceptions],
    [JWTClaimsError] and [ExpiredSignatureError] derive from [JWTError];
    [json.JSONDecodeError] derives from [ValueError]. *)
Definition issubclass (c d : exn_class) : bool :=
  bool_decide (c = d)
  || match c, d with
     | cJWTClaimsError, cJWTError => true
     | cExpiredSignatureError, cJWTError => true
     | cJSONDecodeError, cValueError => true
     | _, _ => false
     end.

Definition isinstance (e : exn) (c : exn_class) : bool :=
  issubclass (class_of e) c.

(** The result of running Python code: a value, or a raised exception. *)
Inductive outcome (A : Type) : Type :=
| Return (a : A)
| Raise (e : exn).
Arguments Return {A} a.
Arguments Raise {A} e.

#[global] Instance outcome_ret : MRet outcome := fun A a => Return a.
#[global] Instance outcome_bind : MBind outcome := fun A B f m =>
  match m with
  | Return a => f a
  | Raise e => Raise e
  end.

(** ** Remote calls *)

(** The requests a handler sends to the store ([LOCAL_API_URL]); [name]
    is [config.service_name]. *)
Inductive call : Type :=
| GET_data (username : string) (name : string)
| POST_token_update (name : string) (login : string) (jwt_token : string)
| DELETE_token_delete (name : string) (login : string) (jwt_token : string).

(** A handler: the calls it made, in order, and how it ended. *)
Definition M (A : Type) : Type := (list call * outcome A)%type.

#[global] Instance M_ret : MRet M := fun A a => ([], Return a).
#[global] Instance M_bind : MBind M := fun A B f m =>
  match m with
  | (tr, Return a) => let r := f a in (tr ++ r.1, r.2)
  | (tr, Raise e) => (tr, Raise e)
  end.

Definition raise {A : Type} (e : exn) : M A := ([], Raise e).
Definition lift {A : Type} (o : outcome A) : M A := ([], o).
Definition emit (c : call) : M unit := ([c], Return tt).

(** [try: body  except <clause>: handler]: [handler e] is [None] when
    the clause does not match [e], which then propagates. *)
Definition try_except {A : Type} (body : M A) (handler : exn -> option (M A)) : M A :=
  match body with
  | (tr, Raise e) =>
      match handler e with
      | Some h => (tr ++ h.1, h.2)
      | None => (tr, Raise e)
      end
  | (tr, Return a) => (tr, Return a)
  end.

(** The replies of the store.  [SendError]/[GetError]: [requests]
    raised [RequestException].  For [GET /data/{username}] the body is
    either not a JSON object ([response.json()] or [.get] raises), or an
    object whose ["data"] member is absent or a JSON object. *)
Inductive send_reply : Type :=
| SendError
| SendResponse (ok : bool).

Inductive get_body : Type :=
| BodyInvalid
| BodyJson (data : option dict).

Inductive get_reply : Type :=
| GetError
| GetResponse (ok : bool) (body : get_body).

(** ** The world a request runs in *)

Record world : Type := {
  now : Z;                  (* the clock, in whole seconds since the epoch;
                               the service runs with UTC as its local
                               time, so datetime.now() and the library's
                               clock read the same number *)
  SECRET_KEY : string;      (* secrets.token_hex(32), fixed at start *)
  service_name : string;    (* config.service_name *)
  remote_get : string -> get_reply;
  remote_update : string -> string -> send_reply;
  remote_delete : string -> string -> send_reply
}.

(** The library functions the handlers call.
    - [jws_sign claims key]: [jose.jws.sign] with HS256; [None] when it
      raises.
    - [jws_verify token key]: [jose.jws.verify] followed by
      [json.loads]; [None] when the signature does not verify or the
      payload is not a JSON object.
    - [int_of_str]: Python's [int(s)] on a string; [None] is ValueError.
    - [pwd_verify]: [pwd_context.verify(plain, hashed)]; [None] when
      passlib raises (a value that is not a hash it knows). *)
Record Lib : Type := {
  jws_sign : dict -> string -> option string;
  jws_verify : string -> string -> option dict;
  int_of_str : string -> option Z;
  pwd_verify : string -> json -> option bool
}.

Definition ALGORITHM : string := "HS256".
Definition ACCESS_TOKEN_EXPIRE_DAYS : Z := 7.

(** [timedelta(days=n)], in seconds. *)
Definition timedelta_days (n : Z) : Z := n * 86400.

(** ** The JOSE library: [jwt.encode] and [jwt.decode]

    Modelled on python-jose's [jose/jwt.py], called the way [app.py]
    calls it: no [options], [audience], [issuer], [subject] or
    [access_token] argument, so every [verify_*] option has its default
    [True] and [leeway] is 0.  The clock the library reads is the
    world's [now]. *)
Module jwt.
Section jwt.
Context (L : Lib).

(** Python's [int(v)]. *)
Definition py_int (v : json) : outcome Z :=
  match v with
  | JInt z => Return z
  | JBool b => Return (if b then 1 else 0)
  | JStr s => match int_of_str L s with
              | Some z => Return z
              | None => Raise ValueError
              end
  | JNull | JArr _ | JObj _ => Raise TypeError
  end.

(** [try: int(v)  except ValueError: raise JWTClaimsError(...)]; a
    [TypeError] is not caught. *)
Definition int_claim (v : json) : outcome Z :=
  match py_int v with
  | Raise e => if isinstance e cValueError then Raise JWTClaimsError else Raise e
  | Return z => Return z
  end.

Definition _validate_iat (claims : dict) : outcome unit :=
  match claims !! "iat" with
  | None => Return tt
  | Some v => _ ← int_claim v; Return tt
  end.

(** [if nbf > (now + leeway): raise JWTClaimsError(...)] *)
Definition _validate_nbf (now : Z) (claims : dict) : outcome unit :=
  match claims !! "nbf" with
  | None => Return tt
  | Some v =>
      nbf ← int_claim v;
      if now <? nbf then Raise JWTClaimsError else Return tt
  end.

(** [if exp < (now - leeway): raise ExpiredSignatureError(...)] *)
Definition _validate_exp (now : Z) (claims : dict) : outcome unit :=
  match claims !! "exp" with
  | None => Return tt
  | Some v =>
      exp ← int_claim v;
      if exp <? now then Raise ExpiredSignatureError else Return tt
  end.

(** With [audience=None] a token that carries ["aud"] is always
    rejected: the claim has the wrong format, or [None] is not in it. *)
Definition _validate_aud (claims : dict) : outcome unit :=
  match claims !! "aud" with
  | None => Return tt
  | Some _ => Raise JWTClaimsError
  end.

Definition _validate_sub (claims : dict) : outcome unit :=
  match claims !! "sub" with
  | None => Return tt
  | Some (JStr _) => Return tt
  | Some _ => Raise JWTClaimsError
  end.

Definition _validate_jti (claims : dict) : outcome unit :=
  match claims !! "jti" with
  | None => Return tt
  | Some (JStr _) => Return tt
  | Some _ => Raise JWTClaimsError
  end.

(** No [access_token] is passed, so a token with ["at_hash"] fails. *)
Definition _validate_at_hash (claims : dict) : outcome unit :=
  match claims !! "at_hash" with
  | None => Return tt
  | Some _ => Raise JWTClaimsError
  end.

(** [_validate_iss] is skipped: [issuer] is [None]. *)
Definition _validate_claims (now : Z) (claims : dict) : outcome unit :=
  _ ← _validate_iat claims;
  _ ← _validate_nbf now claims;
  _ ← _validate_exp now claims;
  _ ← _validate_aud claims;
  _ ← _validate_sub claims;
  _ ← _validate_jti claims;
  _validate_at_hash claims.

(** [jwt.decode(token, key=key, algorithms=...)].  The two call sites
    pass [[ALGORITHM]] and [ALGORITHM]; for the HS256 tokens of this
    service both accept the same tokens, and the model does not tell
    them apart. *)
Definition decode (now : Z) (token key : string) : outcome dict :=
  match jws_verify L token key with
  | None => Raise JWTError
  | Some claims => _ ← _validate_claims now claims; Return claims
  end.

(** [jwt.encode(claims, key=key, algorithm=ALGORITHM)].  The expiry
    is already a number of seconds here (the library converts the
    [datetime] it is given with [timegm]). *)
Definition encode (claims : dict) (key : string) : outcome string :=
  match jws_sign L claims key with
  | None => Raise JWSError
  | Some token => Return token
  end.
End jwt.
End jwt.

(** [datetime.fromtimestamp(v)]: needs a number, within the years
    1..9999 ([ValueError] stands for the error raised outside). *)
Definition MIN_TIMESTAMP : Z := -62135596800.
Definition MAX_TIMESTAMP : Z := 253402300799.

Definition fromtimestamp (v : json) : outcome Z :=
  match v with
  | JInt z =>
      if (MIN_TIMESTAMP <=? z) && (z <=? MAX_TIMESTAMP) then Return z
      else Raise ValueError
  | JBool b => Return (if b then 1 else 0)
  | JNull | JStr _ | JArr _ | JObj _ => Raise TypeError
  end.

(** [d[k]]: raises [KeyError] when the key is absent. *)
Definition py_getitem (d : dict) (k : string) : outcome json :=
  match d !! k with
  | Some v => Return v
  | None => Raise (KeyError k)
  end.

(** ** Request and response models ([models.py]) *)

Record User : Type := { username : string; password : string }.
Record TokenVerify : Type := { tv_username : string; token : string }.
Record TokenRefresh : Type := { tr_username : string; refresh_token_field : string }.
Record Token : Type := { access_token : string; token_type : string }.

(** The dictionary [verify_token] returns. *)
Record Verified : Type := { valid : bool; user_id : json; agency_id : json }.

(** The dictionary [logout] returns. *)
Record Message : Type := { message : string }.

Definition HTTP_400_BAD_REQUEST : Z := 400.
Definition HTTP_401_UNAUTHORIZED : Z := 401.
Definition HTTP_404_NOT_FOUND : Z := 404.
Definition HTTP_500_INTERNAL_SERVER_ERROR : Z := 500.

(** ** [app.py]: helpers and handlers *)

Section app.
Context (L : Lib) (w : world).

(** [pwd_context.verify(plain_password, hashed_password)] *)
Definition verify_password (plain_password : string) (hashed_password : json)
  : outcome bool :=
  match pwd_verify L plain_password hashed_password with
  | Some matches => Return matches
  | None => Raise PasslibError
  end.

(** Returns the encoded token, or [False] ([None] here) when anything
    in the [try] body raised.  [if expires_delta:] is false for a
    zero [timedelta]. *)
Definition create_access_token (data : dict) (expires_delta : option Z)
  : option string :=
  let to_encode := data in
  let expire :=
    match expires_delta with
    | Some d => if Z.eqb d 0
                then now w + timedelta_days ACCESS_TOKEN_EXPIRE_DAYS
                else now w + d
    | None => now w + timedelta_days ACCESS_TOKEN_EXPIRE_DAYS
    end in
  let to_encode := <["exp" := JInt expire]> to_encode in
  match jwt.encode L to_encode (SECRET_KEY w) with
  | Return encode_jwt => Some encode_jwt
  | Raise _ => None
  end.

(** [not access_token], for the value [create_access_token] returns:
    [False] and the empty string are falsy. *)
Definition not_token (access_token : option string) : bool :=
  match access_token with
  | None => true
  | Some s => String.eqb s ""
  end.

(** [requests.post(f"{LOCAL_API_URL}/token/update", json=...)],
    giving [response.ok]. *)
Definition requests_post_token_update (login jwt_token : string) : M bool :=
  _ ← emit (POST_token_update (service_name w) login jwt_token);
  match remote_update w login jwt_token with
  | SendError => raise RequestException
  | SendResponse ok => mret ok
  end.

Definition update_token_in_DB (username access_token : string) : M bool :=
  try_except
    (response_ok ← requests_post_token_update username access_token;
     if negb response_ok then mret false else mret true)
    (fun _ => Some (mret false)).

(** [requests.get(f"{LOCAL_API_URL}/data/{username}", json=...)] *)
Definition requests_get_data (username : string) : M (bool * get_body) :=
  _ ← emit (GET_data username (service_name w));
  match remote_get w username with
  | GetError => raise RequestException
  | GetResponse ok body => mret (ok, body)
  end.

(** [None] on every failure; an empty record is falsy ([not data]). *)
Definition get_user (username : string) : M (option dict) :=
  try_except
    (response ← requests_get_data username;
     if negb response.1 then mret None
     else
       data ← match response.2 with
              | BodyInvalid => raise JSONDecodeError
              | BodyJson data => mret data
              end;
       match data with
       | None => mret None
       | Some d => if bool_decide (d = ∅) then mret None else mret (Some d)
       end)
    (fun _ => Some (mret None)).

Definition bearer (access_token : string) : Token :=
  {| access_token := access_token; token_type := "bearer" |}.

(** [POST /login] *)
Definition login (user_data : User) : M Token :=
  user ← get_user (username user_data);
  match user with
  | None => raise (HTTPException HTTP_401_UNAUTHORIZED "User not found" [])
  | Some user =>
      hashed ← lift (py_getitem user "password");
      ok ← lift (verify_password (password user_data) hashed);
      if negb ok
      then raise (HTTPException HTTP_401_UNAUTHORIZED "Incorrect password" [])
      else
        sub ← lift (py_getitem user "login");
        ngy ← lift (py_getitem user "agency_id");
        let access_token :=
          create_access_token {[ "sub" := sub; "ngy" := ngy ]}
            (Some (timedelta_days ACCESS_TOKEN_EXPIRE_DAYS)) in
        match access_token with
        | Some tok =>
            if not_token access_token
            then raise (HTTPException HTTP_500_INTERNAL_SERVER_ERROR
                          "Failed to create access token" [])
            else
              updated ← update_token_in_DB (username user_data) tok;
              if negb updated
              then raise (HTTPException HTTP_500_INTERNAL_SERVER_ERROR
                            "Failed to update token in database" [])
              else mret (bearer tok)
        | None =>
            raise (HTTPException HTTP_500_INTERNAL_SERVER_ERROR
                     "Failed to create access token" [])
        end
  end.

(** [POST /token/create]; [form_data] carries the same two fields. *)
Definition login_for_access_token (form_data : User) : M Token :=
  user ← get_user (username form_data);
  let bad_credentials : M Token :=
    raise (HTTPException HTTP_401_UNAUTHORIZED "Incorrect username or password"
             [("WWW-Authenticate", "Bearer")]) in
  match user with
  | None => bad_credentials
  | Some user =>
      hashed ← lift (py_getitem user "password");
      ok ← lift (verify_password (password form_data) hashed);
      if negb ok then bad_credentials
      else
        sub ← lift (py_getitem user "login");
        ngy ← lift (py_getitem user "agency_id");
        let access_token :=
          create_access_token {[ "sub" := sub; "ngy" := ngy ]}
            (Some (timedelta_days ACCESS_TOKEN_EXPIRE_DAYS)) in
        match access_token with
        | Some tok =>
            if not_token access_token
            then raise (HTTPException 400 "Token creation error" [])
            else
              updated ← update_token_in_DB (username form_data) tok;
              if (updated : bool) then mret (bearer tok)
              else raise (HTTPException 400 "Token update in DB error" [])
        | None => raise (HTTPException 400 "Token creation error" [])
        end
  end.

(** [POST /token/verify] *)
Definition verify_token (token_data : TokenVerify) : M Verified :=
  try_except
    (payload ← lift (jwt.decode L (now w) (token token_data) (SECRET_KEY w));
     let username := py_get payload "sub" in
     if negb (truthy username)
     then raise (HTTPException HTTP_400_BAD_REQUEST
                   "Invalid token: missing username" [])
     else
       let exp_timestamp := py_get payload "exp" in
       if negb (truthy exp_timestamp)
       then raise (HTTPException HTTP_400_BAD_REQUEST
                     "Invalid token: missing expiration" [])
       else
         exp_datetime ← lift (fromtimestamp exp_timestamp);
         if exp_datetime <=? now w
         then raise (HTTPException HTTP_401_UNAUTHORIZED "Token has expired" [])
         else
           let agency_id := py_get payload "ngy" in
           if negb (truthy agency_id)
           then raise (HTTPException HTTP_400_BAD_REQUEST
                         "Invalid token: missing expiration" [])
           else
             user ← get_user (tv_username token_data);
             match user with
             | None => raise (HTTPException HTTP_404_NOT_FOUND "User not found" [])
             | Some user =>
                 let stored_token := py_get user "jwt_token" in
                 if negb (bool_decide (stored_token = JStr (token token_data)))
                 then raise (HTTPException HTTP_401_UNAUTHORIZED
                               "Invalid token: does not match stored token" [])
                 else mret {| valid := true; user_id := username;
                              agency_id := agency_id |}
             end)
    (fun e =>
       (* except JWTError *)
       if isinstance e cJWTError
       then Some (raise (HTTPException HTTP_400_BAD_REQUEST "Invalid token format" []))
       else None).

(** The exception classes bound in the namespace of the module
    [jose.jwt] (what [jwt.<name>] can evaluate to in an [except]
    clause); any other name raises [AttributeError]. *)
Definition jwt_module_attr (name : string) : outcome exn_class :=
  if String.eqb name "JWTError" then Return cJWTError
  else if String.eqb name "JWTClaimsError" then Return cJWTClaimsError
  else if String.eqb name "ExpiredSignatureError" then Return cExpiredSignatureError
  else if String.eqb name "JWSError" then Return cJWSError
  else Raise (AttributeError name).

(** The body of the [try] statement of [refresh_token]. *)
Definition refresh_token_try (token_data : TokenRefresh) : M Token :=
  payload ← lift (jwt.decode L (now w) (refresh_token_field token_data)
                    (SECRET_KEY w));
  let username := py_get payload "sub" in
  if bool_decide (username = JNull)
  then raise (HTTPException 400 "Invalid refresh token" [])
  else
    let access_token :=
      create_access_token {[ "sub" := username ]}
        (Some (timedelta_days ACCESS_TOKEN_EXPIRE_DAYS)) in
    match access_token with
    | Some tok =>
        if not_token access_token
        then raise (HTTPException 400 "Token update error" [])
        else
          updated ← update_token_in_DB (tr_username token_data) tok;
          if (updated : bool) then mret (bearer tok)
          else raise (HTTPException 400 "Token update in DB error" [])
    | None => raise (HTTPException 400 "Token update error" [])
    end.

(** [POST /token/refresh].  Python evaluates the expression of an
    [except] clause when an exception leaving the [try] body has to be
    matched against it: [jwt.PyJWTError] is looked up in the module
    [jose.jwt] first, and only if that gives a class is the exception
    compared with it. *)
Definition refresh_token (token_data : TokenRefresh) : M Token :=
  try_except
    (refresh_token_try token_data)
    (fun e =>
       match jwt_module_attr "PyJWTError" with
       | Raise e' => Some (raise e')
       | Return cls =>
           if isinstance e cls
           then Some (raise (HTTPException 400 "Invalid refresh token" []))
           else None
       end).

(** [requests.delete(f"{LOCAL_API_URL}/token/delete", json=...)],
    giving [response.ok]. *)
Definition requests_delete_token (login jwt_token : string) : M bool :=
  _ ← emit (DELETE_token_delete (service_name w) login jwt_token);
  match remote_delete w login jwt_token with
  | SendError => raise RequestException
  | SendResponse ok => mret ok
  end.

(** [POST /logout] *)
Definition logout (token_data : TokenVerify) : M Message :=
  try_except
    (valid_response ← verify_token token_data;
     if negb (valid valid_response)
     then raise (HTTPException HTTP_401_UNAUTHORIZED "Invalid token" [])
     else
       response_ok ← requests_delete_token (tv_username token_data)
                       (token token_data);
       if negb response_ok
       then raise (HTTPException HTTP_500_INTERNAL_SERVER_ERROR
                     "Failed to delete token from database" [])
       else mret {| message := "Successfully logged out" |})
    (fun e =>
       (* except HTTPException: raise *)
       if isinstance e cHTTPException then Some (raise e) else None).
End app.

(** ** The store client, as functions of the store's reply *)

(** What [get_user] hands to the handler. *)
Definition fetch_user (w : world) (username : string) : option dict :=
  match remote_get w username with
  | GetResponse true (BodyJson (Some d)) =>
      if bool_decide (d = ∅) then None else Some d
  | _ => None
  end.

(** What [update_token_in_DB] hands to the handler. *)
Definition save_token (w : world) (username access_token : string) : bool :=
  match remote_update w username access_token with
  | SendResponse ok => ok
  | SendError => false
  end.

(** ** The specification's vocabulary *)

(** The rejection kinds of the specification and the status each one
    is reported with. *)
Inductive kind : Type := BadRequest | Unauthorized | NotFound | InternalError.

Definition kind_of_status (status_code : Z) : option kind :=
  if Z.eqb status_code 400 then Some BadRequest
  else if Z.eqb status_code 401 then Some Unauthorized
  else if Z.eqb status_code 404 then Some NotFound
  else if Z.eqb status_code 500 then Some InternalError
  else None.

(** How a handler's outcome reads in the specification: a success
    body, or a rejection of some kind; an exception that is not an
    [HTTPException] is neither. *)
Definition classify {A : Type} (o : outcome A) : option (kind + A) :=
  match o with
  | Return a => Some (inr a)
  | Raise (HTTPException status_code _ _) => inl <$> kind_of_status status_code
  | Raise _ => None
  end.

(** A claim is absent when the payload has no value for it. *)
Definition absent (v : json) : bool := bool_decide (v = JNull).

(** Verify, following the specification's words: the checks made on the
    decoded claims, in the stated order.  [record] is the user's record
    in the store, [presented] the token of the request. *)
Definition Verify_spec (now : Z) (claims : dict) (record : option dict)
    (presented : string) : kind + Verified :=
  let subject := py_get claims "sub" in
  let expires_at := py_get claims "exp" in
  let agency := py_get claims "ngy" in
  if absent subject || absent expires_at then inl BadRequest
  else if match expires_at with JInt e => e <=? now | _ => false end
       then inl Unauthorized
  else if absent agency then inl BadRequest
  else match record with
       | None => inl NotFound
       | Some r =>
           if bool_decide (py_get r "jwt_token" = JStr presented)
           then inr {| valid := true; user_id := subject; agency_id := agency |}
           else inl Unauthorized
       end.

(** The expiry claim, when present, is a timestamp. *)
Definition expiry_is_timestamp (claims : dict) : Prop :=
  claims !! "exp" = None \/
  exists e, claims !! "exp" = Some (JInt e) /\ e <= MAX_TIMESTAMP.

(** A claim that is present has a non-empty value. *)
Definition usable (claims : dict) (k : string) : Prop :=
  py_get claims k <> JNull -> truthy (py_get claims k) = true.

(** The library's signing and verification agree. *)
Definition sign_verify_roundtrip (L : Lib) : Prop :=
  forall claims key t, jws_sign L claims key = Some t ->
                       jws_verify L t key = Some claims.

(** A time claim that is absent or an integer. *)
Definition integer_or_absent (claims : dict) (k : string) : Prop :=
  claims !! k = None \/ exists z, claims !! k = Some (JInt z).


(** The claims [refresh_token] hands to [create_access_token], after
    the expiry has been added: [{"sub": username}] updated with
    ["exp"]. *)
Definition refreshed_claims (w : world) (subject : json) : dict :=
  <["exp" := JInt (now w + timedelta_days ACCESS_TOKEN_EXPIRE_DAYS)]>
    {[ "sub" := subject ]}.

(** ** A small library instance and world, for running the handlers *)

Module demo.
Definition alice_claims (exp : Z) : dict :=
  {[ "sub" := JStr "alice"; "ngy" := JStr "agency-1"; "exp" := JInt exp ]}.

(** A codec given by a finite table of tokens. *)
Definition table : list (string * dict) :=
  [ ("tok.alice.2000", alice_claims 2000);
    ("tok.alice.500", alice_claims 500);
    ("tok.noagency", {[ "sub" := JStr "alice"; "exp" := JInt 2000 ]});
    ("tok.noexp", {[ "sub" := JStr "alice"; "ngy" := JStr "agency-1" ]});
    ("tok.refreshed", {[ "sub" := JStr "alice"; "exp" := JInt (1000 + 604800) ]});
    ("tok.login", alice_claims (1000 + 604800)) ].

Definition sign (claims : dict) (key : string) : option string :=
  if String.eqb key "secret"
  then fst <$> List.find (fun e => bool_decide (e.2 = claims)) table
  else None.

Definition verify (token key : string) : option dict :=
  if String.eqb key "secret"
  then snd <$> List.find (fun e => String.eqb e.1 token) table
  else None.

Definition lib : Lib :=
  {| jws_sign := sign;
     jws_verify := verify;
     int_of_str := fun _ => None;
     pwd_verify := fun plain hashed =>
                     Some (bool_decide (hashed = JStr ("hash:" ++ plain))) |}.

Definition alice_record (stored : string) : dict :=
  {[ "login" := JStr "alice"; "password" := JStr "hash:correct";
     "agency_id" := JStr "agency-1"; "jwt_token" := JStr stored ]}.

(** At time 1000 the store knows one user, [holder], with alice's
    record and [stored] as the active token; [writes] tells whether
    the store accepts updates and deletions. *)
Definition world_of (holder stored : string) (writes : bool) : world :=
  {| now := 1000;
     SECRET_KEY := "secret";
     service_name := "auth";
     remote_get := fun u =>
       if String.eqb u holder
       then GetResponse true (BodyJson (Some (alice_record stored)))
       else GetResponse true (BodyJson None);
     remote_update := fun _ _ => SendResponse writes;
     remote_delete := fun _ _ => SendResponse writes |}.

Definition world_at : string -> bool -> world := world_of "alice".
End demo.

(** ** [logger/logger.py]: the class [ColorfulLogger]

    The methods of a logger that has been constructed.  What a method
    does to the outside is the list of its events, in order: a line
    printed, a record handed to the file handler of [self.logger], a
    message posted to the Telegram Bot API. *)
Module logger.

Inductive event : Type :=
| Print (text color : string)
| FileRecord (levelname message : string)
| TelegramPost (url chat_id text : string).

(** The attributes the methods read.  An attribute that is [None] or
    the empty string (both falsy, and never formatted) is [""]. *)
Record ColorfulLogger : Type := {
  service_name : string;
  tg_api_alert : string;
  tg_chat_id_alert : string
}.

(** The frame [inspect.currentframe().f_back] gives. *)
Record frame : Type := {
  co_filename : string;
  f_lineno : N;
  co_name : string
}.

(** What the methods read from outside the logger.
    - [time_str]: [datetime.now().strftime("%Y-%m-%d %H:%M:%S")];
    - [module_file]: the file name of [logger.py], which is the
      [co_filename] of the frames of its own methods;
    - [telegram]: the reply to [requests.post(url, data=payload)];
    - [exception_text]: [str(e)] of the [RequestException] raised;
    - [format_exc]: [traceback.format_exc()];
    - [percent]: [message % args]. *)
Record env : Type := {
  time_str : string;
  module_file : string;
  telegram : string -> string -> string -> send_reply;
  exception_text : string;
  format_exc : string;
  percent : string -> list json -> outcome string
}.

Definition newline : string := String (Ascii.ascii_of_nat 10) EmptyString.

(** [bool(s)] for a string. *)
Definition nonempty (s : string) : bool := negb (String.eqb s "").

Section methods.
Context (self : ColorfulLogger) (E : env).

(** [_send_telegram_alert]: never raises. *)
Definition _send_telegram_alert (message : string) : list event :=
  if negb (nonempty (tg_api_alert self)) || negb (nonempty (tg_chat_id_alert self))
  then []
  else
    let url := "https://api.telegram.org/bot" +:+ tg_api_alert self +:+ "/sendMessage" in
    TelegramPost url (tg_chat_id_alert self) message ::
    match telegram E url (tg_chat_id_alert self) message with
    | SendResponse ok =>
        if negb ok
        then [FileRecord "ERROR" "Не удалось отправить алерт в Telegram."]
        else []
    | SendError =>
        [FileRecord "ERROR"
           ("Ошибка при отправке алерта в Telegram: " +:+ exception_text E)]
    end.

Definition color_map (level : string) : option string :=
  if String.eqb level "INFO" then Some "green"
  else if String.eqb level "DEBUG" then Some "blue"
  else if String.eqb level "WARNING" then Some "yellow"
  else if String.eqb level "ERROR" then Some "red"
  else if String.eqb level "CRITICAL" then Some "magenta"
  else None.

(** [message % args if args else message] *)
Definition format_message (message : string) (args : list json) : outcome string :=
  match args with
  | [] => Return message
  | _ :: _ => percent E message args
  end.

(** [log], called from the frame [caller]. *)
Definition log (caller : frame) (level message : string) (args : list json)
  : list event * outcome unit :=
  match color_map level with
  | None => ([], Raise ValueError)
  | Some color =>
      match format_message message args with
      | Raise e => ([], Raise e)
      | Return formatted_message =>
          let colored_message :=
            time_str E +:+ " [" +:+ level +:+ "] " +:+ formatted_message
            +:+ " (Service: " +:+ service_name self
            +:+ ", File: " +:+ co_filename caller
            +:+ ", Line: " +:+ pretty (f_lineno caller)
            +:+ ", Function: " +:+ co_name caller +:+ ")" in
          (Print colored_message color ::
           (if String.eqb level "INFO" then [FileRecord "INFO" formatted_message]
            else if String.eqb level "DEBUG" then [FileRecord "DEBUG" formatted_message]
            else if String.eqb level "WARNING"
                 then [FileRecord "WARNING" formatted_message]
            else if String.eqb level "ERROR"
                 then FileRecord "ERROR" formatted_message ::
                      (if nonempty (tg_api_alert self)
                       then _send_telegram_alert
                              ("🚨 Ошибка в сервисе " +:+ service_name self
                               +:+ ": " +:+ formatted_message)
                       else [])
            else if String.eqb level "CRITICAL"
                 then FileRecord "CRITICAL" formatted_message ::
                      (if nonempty (tg_api_alert self)
                       then _send_telegram_alert
                              ("🔥 Критическая ошибка в сервисе " +:+ service_name self
                               +:+ ": " +:+ formatted_message)
                       else [])
            else []),
           Return tt)
      end
  end.

(** The frame of a method of this class that calls [self.log] at
    [line]. *)
Definition own_frame (name : string) (line : N) : frame :=
  {| co_filename := module_file E; f_lineno := line; co_name := name |}.

Definition info (message : string) (args : list json) :=
  log (own_frame "info" 130) "INFO" message args.

Definition debug (message : string) (args : list json) :=
  log (own_frame "debug" 134) "DEBUG" message args.

Definition warning (message : string) (args : list json) :=
  log (own_frame "warning" 138) "WARNING" message args.

Definition error (message : string) (args : list json) :=
  log (own_frame "error" 142) "ERROR" message args.

Definition critical (message : string) (args : list json) :=
  log (own_frame "critical" 146) "CRITICAL" message args.

Definition exception (message : string) (args : list json)
  : list event * outcome unit :=
  match format_message message args with
  | Raise e => ([], Raise e)
  | Return error_message =>
      let tb := format_exc E in
      let full_message := error_message +:+ newline +:+ tb in
      match error full_message [] with
      | (events, Raise e) => (events, Raise e)
      | (events, Return _) =>
          (events ++
           (if nonempty (tg_api_alert self)
            then _send_telegram_alert
                   ("⚠️ Исключение в сервисе " +:+ service_name self +:+ ":"
                    +:+ newline +:+ full_message)
            else []),
           Return tt)
      end
  end.
End methods.

(** The messages posted to Telegram, in order. *)
Definition posted (events : list event) : list string :=
  omap (fun ev => match ev with
                  | TelegramPost _ _ text => Some text
                  | _ => None
                  end) events.

(** A logger with both Telegram settings, and one without a chat. *)
Definition demo_logger : ColorfulLogger :=
  {| service_name := "auth"; tg_api_alert := "bot-token";
     tg_chat_id_alert := "42" |}.

(** An environment in which Telegram cannot be reached. *)
Definition demo_env : env :=
  {| time_str := "2024-01-01 00:00:00";
     module_file := "logger.py";
     telegram := fun _ _ _ => SendError;
     exception_text := "connection refused";
     format_exc := "Traceback";
     percent := fun _ _ => Raise TypeError |}.
End logger.

(** ** A second instance, with unusual tokens and records *)

Module demo2.
(** A codec given by a finite table of tokens. *)
Definition table : list (string * dict) :=
  [ ("tok.agency0",
     {[ "sub" := JStr "alice"; "ngy" := JInt 0; "exp" := JInt 2000 ]});
    ("tok.strexp",
     {[ "sub" := JStr "alice"; "ngy" := JStr "agency-1"; "exp" := JStr "2000" ]});
    ("tok.numeric",
     {[ "sub" := JInt 7; "ngy" := JStr "agency-1";
        "exp" := JInt (1000 + 604800) ]}) ].

Definition sign (claims : dict) (key : string) : option string :=
  if String.eqb key "secret"
  then fst <$> List.find (fun e => bool_decide (e.2 = claims)) table
  else None.

Definition verify (token key : string) : option dict :=
  if String.eqb key "secret"
  then snd <$> List.find (fun e => String.eqb e.1 token) table
  else None.

Definition lib : Lib :=
  {| jws_sign := sign;
     jws_verify := verify;
     int_of_str := fun s => if String.eqb s "2000" then Some 2000 else None;
     pwd_verify := fun plain hashed =>
                     Some (bool_decide (hashed = JStr ("hash:" ++ plain))) |}.

(** A record without ["agency_id"]. *)
Definition partial_record : dict :=
  {[ "login" := JStr "alice"; "password" := JStr "hash:correct" ]}.

(** A record whose ["login"] is a number. *)
Definition numeric_record : dict :=
  {[ "login" := JInt 7; "password" := JStr "hash:correct";
     "agency_id" := JStr "agency-1" ]}.

(** At time 1000 the store answers every lookup with [record] and
    accepts every write. *)
Definition world_with (record : dict) : world :=
  {| now := 1000;
     SECRET_KEY := "secret";
     service_name := "auth";
     remote_get := fun _ => GetResponse true (BodyJson (Some record));
     remote_update := fun _ _ => SendResponse true;
     remote_delete := fun _ _ => SendResponse true |}.
End demo2.

(** ** [get_user], for any reply of the store

    [get_user] above is given replies whose ["data"] member is an
    object, as the store's contract has it.  The function itself does
    not look at the type of ["data"]: it returns any truthy value.
    Here is the same function on any reply: a body that is not JSON
    ([AnyInvalid]: [response.json()] raises), or any JSON value. *)
Inductive any_body : Type :=
| AnyInvalid
| AnyJson (response_json : json).

Inductive any_reply : Type :=
| AnyError
| AnyResponse (ok : bool) (body : any_body).

(** [v.get(k)]: only a dict has the method.  [json.loads] keeps the
    last of the members that share a key. *)
Definition json_get (v : json) (k : string) : outcome json :=
  match v with
  | JObj members => Return (py_get (list_to_map (reverse members)) k)
  | _ => Raise (AttributeError "get")
  end.

Definition get_user_any (name : string) (reply : any_reply) (username : string)
  : M (option json) :=
  try_except
    (_ ← emit (GET_data username name);
     match reply with
     | AnyError => raise RequestException
     | AnyResponse ok body =>
         if negb ok then (mret None : M (option json))
         else
           response_json ← match body with
                           | AnyInvalid => raise JSONDecodeError
                           | AnyJson v => (mret v : M json)
                           end;
           data ← lift (json_get response_json "data");
           if negb (truthy data) then mret None else mret (Some data)
     end)
    (fun _ => Some (mret None)).

(** A reply of the store's contract, as a reply in full. *)
Definition any_of_reply (reply : get_reply) : any_reply :=
  match reply with
  | GetError => AnyError
  | GetResponse ok BodyInvalid => AnyResponse ok AnyInvalid
  | GetResponse ok (BodyJson None) => AnyResponse ok (AnyJson (JObj []))
  | GetResponse ok (BodyJson (Some d)) =>
      AnyResponse ok (AnyJson (JObj [("data", JObj (map_to_list d))]))
  end.

(** ** A codec for the signed tokens: JWS with HS256

    [Lib] leaves the signing and the verification of tokens open.  This
    module gives them as the JWS compact serialisation does it:
    [base64url(header) . base64url(payload) . base64url(MAC)], header
    and payload being JSON texts written without spaces.  The MAC
    function, HMAC-SHA256 in the library, is a parameter: nothing below
    depends on how it computes.  The reader of JSON text accepts the
    compact text that the writer emits (it does not skip white space),
    and the base64url reader refuses any character outside the
    alphabet. *)
Module jws.

(** Byte strings and text are lists of characters here; a Python
    [str] is a [string] whose characters are code points below 256. *)
Definition chars (s : string) : list ascii := list_ascii_of_string s.
Definition text (l : list ascii) : string := string_of_list_ascii l.

(** *** base64url, without padding *)

Definition alphabet : list ascii :=
  chars "ABCDEFGHIJKLMNOPQRSTUVWXYZabcdefghijklmnopqrstuvwxyz0123456789-_".

(** The bits of a byte, most significant first. *)
Definition bits_of_byte (c : ascii) : list bool :=
  let (b0, b1, b2, b3, b4, b5, b6, b7) := c in [b7; b6; b5; b4; b3; b2; b1; b0].

Definition bit (b : bool) : nat := if b then 1%nat else 0%nat.

Definition char_of_sextet (a b c d e f : bool) : ascii :=
  nth (32 * bit a + 16 * bit b + 8 * bit c + 4 * bit d + 2 * bit e + bit f)%nat
    alphabet "A"%char.

(** Six bits per character; a last group that is not full is filled
    with zero bits. *)
Fixpoint sextets (bits : list bool) : list ascii :=
  match bits with
  | a :: b :: c :: d :: e :: f :: rest => char_of_sextet a b c d e f :: sextets rest
  | [a; b; c; d; e] => [char_of_sextet a b c d e false]
  | [a; b; c; d] => [char_of_sextet a b c d false false]
  | [a; b; c] => [char_of_sextet a b c false false false]
  | [a; b] => [char_of_sextet a b false false false false]
  | [a] => [char_of_sextet a false false false false false]
  | [] => []
  end.

Definition base64url_encode (data : list ascii) : list ascii :=
  sextets (flat_map bits_of_byte data).

Fixpoint index_of (c : ascii) (l : list ascii) : option nat :=
  match l with
  | [] => None
  | x :: r => if Ascii.eqb x c then Some O else S <$> index_of c r
  end.

Definition sextet_of_char (c : ascii) : option (list bool) :=
  match index_of c alphabet with
  | Some i =>
      Some [Nat.testbit i 5; Nat.testbit i 4; Nat.testbit i 3;
            Nat.testbit i 2; Nat.testbit i 1; Nat.testbit i 0]
  | None => None
  end.

Fixpoint unsextets (s : list ascii) : option (list bool) :=
  match s with
  | [] => Some []
  | c :: r =>
      match sextet_of_char c, unsextets r with
      | Some b, Some bs => Some (b ++ bs)
      | _, _ => None
      end
  end.

(** Eight bits per byte; the bits left over at the end are dropped. *)
Fixpoint bytes_of_bits (bits : list bool) : list ascii :=
  match bits with
  | b7 :: b6 :: b5 :: b4 :: b3 :: b2 :: b1 :: b0 :: rest =>
      Ascii b0 b1 b2 b3 b4 b5 b6 b7 :: bytes_of_bits rest
  | _ => []
  end.

(** Fails on a character outside the alphabet. *)
Definition base64url_decode (s : list ascii) : option (list ascii) :=
  bytes_of_bits <$> unsextets s.


(** *** JSON text, as [json.dumps(v, separators=(",", ":"))] writes it *)

Definition quote : ascii := ascii_of_nat 34.
Definition backslash : ascii := ascii_of_nat 92.

Definition hex_digit (n : nat) : ascii :=
  nth n (chars "0123456789abcdef") "0"%char.

(** [ensure_ascii]: everything outside the printable ASCII range is
    escaped. *)
Definition escape (c : ascii) : list ascii :=
  let n := nat_of_ascii c in
  if Ascii.eqb c quote then [backslash; quote]
  else if Ascii.eqb c backslash then [backslash; backslash]
  else if Nat.eqb n 10 then [backslash; "n"%char]
  else if Nat.eqb n 13 then [backslash; "r"%char]
  else if Nat.eqb n 9 then [backslash; "t"%char]
  else if Nat.eqb n 8 then [backslash; "b"%char]
  else if Nat.eqb n 12 then [backslash; "f"%char]
  else if (32 <=? n)%nat && (n <=? 126)%nat then [c]
  else [backslash; "u"%char; "0"%char; "0"%char; hex_digit (n / 16); hex_digit (n mod 16)].

Fixpoint escape_string (s : string) : list ascii :=
  match s with
  | EmptyString => []
  | String c s' => escape c ++ escape_string s'
  end.

Definition dumps_string (s : string) : list ascii :=
  quote :: escape_string s ++ [quote].

Fixpoint digits (d : Decimal.uint) : list ascii :=
  match d with
  | Decimal.Nil => []
  | Decimal.D0 d => "0"%char :: digits d
  | Decimal.D1 d => "1"%char :: digits d
  | Decimal.D2 d => "2"%char :: digits d
  | Decimal.D3 d => "3"%char :: digits d
  | Decimal.D4 d => "4"%char :: digits d
  | Decimal.D5 d => "5"%char :: digits d
  | Decimal.D6 d => "6"%char :: digits d
  | Decimal.D7 d => "7"%char :: digits d
  | Decimal.D8 d => "8"%char :: digits d
  | Decimal.D9 d => "9"%char :: digits d
  end.

Definition dumps_int (z : Z) : list ascii :=
  match Z.to_int z with
  | Decimal.Pos d => digits d
  | Decimal.Neg d => "-"%char :: digits d
  end.

(** The parts, separated by commas. *)
Definition commas (parts : list (list ascii)) : list ascii :=
  match parts with
  | [] => []
  | p :: ps => p ++ flat_map (fun q => ","%char :: q) ps
  end.

Fixpoint dumps (v : json) : list ascii :=
  match v with
  | JNull => chars "null"
  | JBool b => if b then chars "true" else chars "false"
  | JInt z => dumps_int z
  | JStr s => dumps_string s
  | JArr items => "["%char :: commas (List.map dumps items) ++ ["]"%char]
  | JObj fields =>
      "{"%char ::
      commas (List.map (fun kv => dumps_string (fst kv) ++ ":"%char :: dumps (snd kv))
                fields)
      ++ ["}"%char]
  end.

(** *** JSON text, read back *)

Definition hex_value (c : ascii) : option nat :=
  index_of c (chars "0123456789abcdef") ∪ index_of c (chars "0123456789ABCDEF").

(** [\uXXXX]; only code points below 256 have a character here. *)
Definition hex4 (h1 h2 h3 h4 : ascii) : option ascii :=
  match hex_value h1, hex_value h2, hex_value h3, hex_value h4 with
  | Some a, Some b, Some c, Some d =>
      if Nat.eqb a 0 && Nat.eqb b 0 then Some (ascii_of_nat (16 * c + d)) else None
  | _, _, _, _ => None
  end.

Definition simple_escape (e : ascii) : option ascii :=
  if Ascii.eqb e quote then Some quote
  else if Ascii.eqb e backslash then Some backslash
  else if Ascii.eqb e "/" then Some "/"%char
  else if Ascii.eqb e "n" then Some (ascii_of_nat 10)
  else if Ascii.eqb e "r" then Some (ascii_of_nat 13)
  else if Ascii.eqb e "t" then Some (ascii_of_nat 9)
  else if Ascii.eqb e "b" then Some (ascii_of_nat 8)
  else if Ascii.eqb e "f" then Some (ascii_of_nat 12)
  else None.

Definition cons_char (c : ascii) (o : option (string * list ascii))
  : option (string * list ascii) :=
  match o with
  | Some (s, rest) => Some (String c s, rest)
  | None => None
  end.

(** The characters of a string up to its closing quote; a raw control
    character is refused. *)
Fixpoint read_string (s : list ascii) : option (string * list ascii) :=
  match s with
  | [] => None
  | c :: r =>
      if Ascii.eqb c quote then Some (EmptyString, r)
      else if Ascii.eqb c backslash then
        match r with
        | [] => None
        | e :: r1 =>
            if Ascii.eqb e "u" then
              match r1 with
              | h1 :: h2 :: h3 :: h4 :: r2 =>
                  match hex4 h1 h2 h3 h4 with
                  | Some ch => cons_char ch (read_string r2)
                  | None => None
                  end
              | _ => None
              end
            else
              match simple_escape e with
              | Some ch => cons_char ch (read_string r1)
              | None => None
              end
        end
      else if (nat_of_ascii c <? 32)%nat then None
      else cons_char c (read_string r)
  end.

Definition digit (c : ascii) : option (Decimal.uint -> Decimal.uint) :=
  if Ascii.eqb c "0" then Some Decimal.D0
  else if Ascii.eqb c "1" then Some Decimal.D1
  else if Ascii.eqb c "2" then Some Decimal.D2
  else if Ascii.eqb c "3" then Some Decimal.D3
  else if Ascii.eqb c "4" then Some Decimal.D4
  else if Ascii.eqb c "5" then Some Decimal.D5
  else if Ascii.eqb c "6" then Some Decimal.D6
  else if Ascii.eqb c "7" then Some Decimal.D7
  else if Ascii.eqb c "8" then Some Decimal.D8
  else if Ascii.eqb c "9" then Some Decimal.D9
  else None.

(** The longest run of digits at the front. *)
Fixpoint read_uint (s : list ascii) : Decimal.uint * list ascii :=
  match s with
  | [] => (Decimal.Nil, [])
  | c :: r =>
      match digit c with
      | Some D => let (d, r') := read_uint r in (D d, r')
      | None => (Decimal.Nil, s)
      end
  end.

Fixpoint strip_prefix (p s : list ascii) : option (list ascii) :=
  match p, s with
  | [], _ => Some s
  | x :: p', y :: s' => if Ascii.eqb x y then strip_prefix p' s' else None
  | _ :: _, [] => None
  end.

(** One value at the front of [s], and what follows it.  [fuel] bounds
    the nesting and the number of elements. *)
Fixpoint loads_value (fuel : nat) (s : list ascii) {struct fuel}
  : option (json * list ascii) :=
  match fuel with
  | O => None
  | S fuel' =>
      match s with
      | [] => None
      | c :: r =>
          if Ascii.eqb c "n" then pair JNull <$> strip_prefix (chars "ull") r
          else if Ascii.eqb c "t" then pair (JBool true) <$> strip_prefix (chars "rue") r
          else if Ascii.eqb c "f" then pair (JBool false) <$> strip_prefix (chars "alse") r
          else if Ascii.eqb c quote then
            match read_string r with
            | Some (str, r') => Some (JStr str, r')
            | None => None
            end
          else if Ascii.eqb c "[" then
            match loads_value fuel' r with
            | Some (x, r1) =>
                match loads_more_items fuel' r1 with
                | Some (xs, r2) => Some (JArr (x :: xs), r2)
                | None => None
                end
            | None => pair (JArr []) <$> strip_prefix (chars "]") r
            end
          else if Ascii.eqb c "{" then
            match loads_member fuel' r with
            | Some (kv, r1) =>
                match loads_more_members fuel' r1 with
                | Some (kvs, r2) => Some (JObj (kv :: kvs), r2)
                | None => None
                end
            | None => pair (JObj []) <$> strip_prefix (chars "}") r
            end
          else if Ascii.eqb c "-" then
            match read_uint r with
            | (Decimal.Nil, _) => None
            | (d, r') => Some (JInt (Z.of_int (Decimal.Neg d)), r')
            end
          else
            match read_uint s with
            | (Decimal.Nil, _) => None
            | (d, r') => Some (JInt (Z.of_int (Decimal.Pos d)), r')
            end
      end
  end
with loads_more_items (fuel : nat) (s : list ascii) {struct fuel}
  : option (list json * list ascii) :=
  match fuel with
  | O => None
  | S fuel' =>
      match s with
      | [] => None
      | c :: r =>
          if Ascii.eqb c "]" then Some ([], r)
          else if Ascii.eqb c "," then
            match loads_value fuel' r with
            | Some (x, r1) =>
                match loads_more_items fuel' r1 with
                | Some (xs, r2) => Some (x :: xs, r2)
                | None => None
                end
            | None => None
            end
          else None
      end
  end
with loads_member (fuel : nat) (s : list ascii) {struct fuel}
  : option ((string * json) * list ascii) :=
  match fuel with
  | O => None
  | S fuel' =>
      match s with
      | [] => None
      | c :: r =>
          if Ascii.eqb c quote then
            match read_string r with
            | Some (k, r1) =>
                match strip_prefix (chars ":") r1 with
                | Some r2 =>
                    match loads_value fuel' r2 with
                    | Some (v, r3) => Some ((k, v), r3)
                    | None => None
                    end
                | None => None
                end
            | None => None
            end
          else None
      end
  end
with loads_more_members (fuel : nat) (s : list ascii) {struct fuel}
  : option (list (string * json) * list ascii) :=
  match fuel with
  | O => None
  | S fuel' =>
      match s with
      | [] => None
      | c :: r =>
          if Ascii.eqb c "}" then Some ([], r)
          else if Ascii.eqb c "," then
            match loads_member fuel' r with
            | Some (kv, r1) =>
                match loads_more_members fuel' r1 with
                | Some (kvs, r2) => Some (kv :: kvs, r2)
                | None => None
                end
            | None => None
            end
          else None
      end
  end.

(** [json.loads]: the whole text is one value. *)
Definition loads (s : list ascii) : option json :=
  match loads_value (S (length s)) s with
  | Some (v, []) => Some v
  | _ => None
  end.

(** *** JWS compact serialisation with HS256 *)

(** [json.dumps] of a [dict]: the keys come in the order in which the
    map enumerates them (the model of a [dict] keeps no insertion
    order). *)
Definition dumps_dict (d : dict) : list ascii :=
  dumps (JObj (map_to_list d)).

(** [json.loads] of the text of an object: of two members with the
    same key the later one wins. *)
Definition loads_dict (s : list ascii) : option dict :=
  match loads s with
  | Some (JObj fields) => Some (list_to_map (reverse fields))
  | _ => None
  end.

Definition dot : ascii := "."%char.

(** [s.split(".", 1)] when there is a dot. *)
Fixpoint split_first (s : list ascii) : option (list ascii * list ascii) :=
  match s with
  | [] => None
  | c :: r =>
      if Ascii.eqb c dot then Some ([], r)
      else match split_first r with
           | Some (a, b) => Some (c :: a, b)
           | None => None
           end
  end.

(** [s.rsplit(".", 1)] when there is a dot. *)
Definition split_last (s : list ascii) : option (list ascii * list ascii) :=
  match split_first (rev s) with
  | Some (b, a) => Some (rev a, rev b)
  | None => None
  end.

Definition header : dict := {[ "alg" := JStr "HS256"; "typ" := JStr "JWT" ]}.

Section hs256.
Context (hmac_sha256 : list ascii -> list ascii -> list ascii).

(** [jws.sign(claims, key, algorithm="HS256")]: header and payload in
    base64url, joined by a dot, followed by a dot and the MAC of that
    text under the key. *)
Definition sign (claims : dict) (key : string) : string :=
  let signing_input :=
    base64url_encode (dumps_dict header) ++ dot :: base64url_encode (dumps_dict claims) in
  text (signing_input ++ dot :: base64url_encode (hmac_sha256 (chars key) signing_input)).

(** [jws.verify(token, key, "HS256")] followed by [json.loads] of the
    payload: the three segments are taken apart, the header must name
    HS256, the signature must be the MAC of the first two segments, and
    the payload must be the text of an object. *)
Definition verify (token key : string) : option dict :=
  '(signing_input, crypto_segment) ← split_last (chars token);
  '(header_segment, claims_segment) ← split_first signing_input;
  header ← base64url_decode header_segment ≫= loads_dict;
  if negb (bool_decide (header !! "alg" = Some (JStr "HS256"))) then None
  else
    payload ← base64url_decode claims_segment;
    signature ← base64url_decode crypto_segment;
    if negb (bool_decide (signature = hmac_sha256 (chars key) signing_input))
    then None
    else loads_dict payload.

(** The library with this codec; the two functions that do not belong
    to it are left open. *)
Definition lib (parse_int : string -> option Z)
    (verify_hash : string -> json -> option bool) : Lib :=
  {| jws_sign := fun claims key => Some (sign claims key);
     jws_verify := verify;
     int_of_str := parse_int;
     pwd_verify := verify_hash |}.
End hs256.

End jws.

(** Nothing at the front of [rest] can be taken for a digit. *)
Definition no_digit_ahead (rest : list ascii) : Prop :=
  jws.read_uint rest = (Decimal.Nil, rest).

(** The reading of a value of known length, followed by [rest]. *)
Definition reads_back (v : json) : Prop :=
  forall fuel rest,
    (length (jws.dumps v) <= fuel)%nat ->
    no_digit_ahead rest ->
    jws.loads_value fuel (jws.dumps v ++ rest) = Some (v, rest).

(** The text of a member of an object. *)
Definition member_text (kv : string * json) : list ascii :=
  jws.dumps_string (fst kv) ++ ":"%char :: jws.dumps (snd kv).


(** ** The handlers at work *)

Example verify_demo :
  verify_token demo.lib (demo.world_at "tok.alice.2000" true)
    {| tv_username := "alice"; token := "tok.alice.2000" |}
  = ([GET_data "alice" "auth"],
     Return {| valid := true; user_id := JStr "alice"; agency_id := JStr "agency-1" |}).
Proof. vm_compute. reflexivity. Qed.

Example login_demo :
  login demo.lib (demo.world_at "" true) {| username := "alice"; password := "correct" |}
  = ([GET_data "alice" "auth"; POST_token_update "auth" "alice" "tok.login"],
     Return {| access_token := "tok.login"; token_type := "bearer" |}).
Proof. vm_compute. reflexivity. Qed.

(** ** Laws of the handler monad *)

Lemma bind_lift_Return {A B : Type} (a : A) (k : A -> M B) :
  (lift (Return a) ≫= k) = k a.
Proof. unfold lift, mbind, M_bind. destruct (k a); reflexivity. Qed.

Lemma bind_lift_Raise {A B : Type} (e : exn) (k : A -> M B) :
  (lift (Raise e) ≫= k) = raise e.
Proof. reflexivity. Qed.

Lemma bind_raise {A B : Type} (e : exn) (k : A -> M B) :
  (raise e ≫= k) = raise e.
Proof. reflexivity. Qed.

Lemma bind_mret {A B : Type} (a : A) (k : A -> M B) :
  (mret a ≫= k) = k a.
Proof. unfold mret, M_ret, mbind, M_bind. destruct (k a); reflexivity. Qed.

Lemma bind_traced {A B : Type} (tr : list call) (a : A) (k : A -> M B) :
  ((tr, Return a) ≫= k) = (tr ++ (k a).1, (k a).2).
Proof. reflexivity. Qed.

Lemma bind_traced_Raise {A B : Type} (tr : list call) (e : exn) (k : A -> M B) :
  ((tr, Raise e) ≫= k) = (tr, Raise e).
Proof. reflexivity. Qed.

Lemma try_except_Return {A : Type} (tr : list call) (a : A) h :
  try_except (tr, Return a) h = (tr, Return a).
Proof. reflexivity. Qed.

Lemma try_except_unmatched {A : Type} (tr : list call) (e : exn)
    (h : exn -> option (M A)) :
  h e = None -> try_except (tr, Raise e) h = (tr, Raise e).
Proof. intros H. unfold try_except. rewrite H. reflexivity. Qed.

(** ** The store client, as functions of the store's reply *)

Lemma get_user_eq (w : world) (u : string) :
  get_user w u = ([GET_data u (service_name w)], Return (fetch_user w u)).
Proof.
  unfold get_user, fetch_user, requests_get_data.
  destruct (remote_get w u) as [|[] [|[d|]]]; try reflexivity.
  cbn. destruct (bool_decide (d = ∅)); reflexivity.
Qed.

Lemma update_token_in_DB_eq (w : world) (u t : string) :
  update_token_in_DB w u t
  = ([POST_token_update (service_name w) u t], Return (save_token w u t)).
Proof.
  unfold update_token_in_DB, save_token, requests_post_token_update.
  destruct (remote_update w u t) as [|[]]; reflexivity.
Qed.

(** ** What a successful [jwt.decode] guarantees *)

Lemma decode_Return (L : Lib) (now : Z) (t key : string) (p : dict) :
  jwt.decode L now t key = Return p <->
  jws_verify L t key = Some p /\ jwt._validate_claims L now p = Return tt.
Proof.
  unfold jwt.decode. destruct (jws_verify L t key) as [c|]; [|split; [discriminate|intros [? _]; discriminate]].
  destruct (jwt._validate_claims L now c) as [[]|e] eqn:E; cbn; split.
  - intros [= ->]. auto.
  - intros [[= ->] _]. reflexivity.
  - discriminate.
  - intros [[= ->] H]. congruence.
Qed.

Lemma decode_Raise_JWTError (L : Lib) (now : Z) (t key : string) :
  jws_verify L t key = None -> jwt.decode L now t key = Raise JWTError.
Proof. intros H. unfold jwt.decode. rewrite H. reflexivity. Qed.

Lemma validate_claims_sub (L : Lib) (now : Z) (p : dict) :
  jwt._validate_claims L now p = Return tt ->
  p !! "sub" = None \/ exists s, p !! "sub" = Some (JStr s).
Proof.
  unfold jwt._validate_claims. intros H.
  destruct (jwt._validate_iat L p) as [[]|]; [|discriminate].
  destruct (jwt._validate_nbf L now p) as [[]|]; [|discriminate].
  destruct (jwt._validate_exp L now p) as [[]|]; [|discriminate].
  destruct (jwt._validate_aud p) as [[]|]; [|discriminate].
  cbn in H. unfold jwt._validate_sub in H.
  destruct (p !! "sub") as [[]|]; try discriminate; eauto.
Qed.

Lemma validate_claims_exp (L : Lib) (now : Z) (p : dict) (e : Z) :
  jwt._validate_claims L now p = Return tt ->
  p !! "exp" = Some (JInt e) -> now <= e.
Proof.
  unfold jwt._validate_claims. intros H He.
  destruct (jwt._validate_iat L p) as [[]|]; [|discriminate].
  destruct (jwt._validate_nbf L now p) as [[]|]; [|discriminate].
  cbn in H. unfold jwt._validate_exp in H. rewrite He in H. cbn in H.
  destruct (Z.ltb_spec e now); [discriminate|lia].
Qed.

(** ** Properties of the handlers *)

Lemma truthy_JInt (z : Z) : z <> 0 -> truthy (JInt z) = true.
Proof. intros H. cbn. destruct (Z.eqb_spec z 0); [contradiction|reflexivity]. Qed.

Lemma truthy_JNull_false (v : json) : truthy v = true -> v <> JNull.
Proof. intros H ->. discriminate. Qed.

Lemma absent_false_iff (v : json) : absent v = false <-> v <> JNull.
Proof. unfold absent. rewrite bool_decide_eq_false. reflexivity. Qed.

(** For a token that [jwt.decode] has accepted, [verify_token] makes
    the checks of the specification in the stated order, with the
    stated rejection kinds: BadRequest when the subject or the expiry
    claim is absent,
    Unauthorized when [now >= expires_at], BadRequest when the
    agency_id claim is absent, NotFound when the store has no record
    for the user, Unauthorized when the stored token is not the
    presented one, and otherwise the body [{valid: true, user_id =
    subject, agency_id}]. *)
Theorem verify_token_checks_in_order (L : Lib) (w : world) (td : TokenVerify)
    (p : dict) :
  0 < now w ->
  jwt.decode L (now w) (token td) (SECRET_KEY w) = Return p ->
  expiry_is_timestamp p ->
  usable p "sub" ->
  usable p "ngy" ->
  classify (verify_token L w td).2
  = Some (Verify_spec (now w) p (fetch_user w (tv_username td)) (token td)).
Proof.
  intros Hnow Hdec Hexp Hsub Hngy.
  apply decode_Return in Hdec as Hdec'. destruct Hdec' as [_ Hval].
  unfold verify_token, Verify_spec. rewrite Hdec, bind_lift_Return.
  unfold usable in *.
  destruct (truthy (py_get p "sub")) eqn:Ts; cbn [negb].
  2: { destruct (absent (py_get p "sub")) eqn:As; [reflexivity|].
       apply absent_false_iff in As. apply Hsub in As. congruence. }
  apply truthy_JNull_false in Ts as Ns.
  apply absent_false_iff in Ns as ->. cbn [orb].
  destruct Hexp as [Hx | (e & Hx & Hmax)].
  { assert (Hpx : py_get p "exp" = JNull) by (unfold py_get; rewrite Hx; reflexivity).
    rewrite !Hpx. reflexivity. }
  assert (Hpx : py_get p "exp" = JInt e) by (unfold py_get; rewrite Hx; reflexivity).
  rewrite !Hpx.
  pose proof (validate_claims_exp _ _ _ _ Hval Hx) as Hle.
  rewrite (truthy_JInt e) by lia. cbn [negb]. change (absent (JInt e)) with false. cbv iota.
  unfold fromtimestamp.
  assert (Hr : (MIN_TIMESTAMP <=? e) && (e <=? MAX_TIMESTAMP) = true).
  { apply andb_true_iff. split; apply Z.leb_le; [unfold MIN_TIMESTAMP; lia|exact Hmax]. }
  rewrite Hr, bind_lift_Return.
  destruct (e <=? now w) eqn:Enow; [reflexivity|].
  destruct (truthy (py_get p "ngy")) eqn:Tn; cbn [negb].
  2: { destruct (absent (py_get p "ngy")) eqn:An; [reflexivity|].
       apply absent_false_iff in An. apply Hngy in An. congruence. }
  apply truthy_JNull_false in Tn as Nn.
  apply absent_false_iff in Nn as ->.
  rewrite get_user_eq, bind_traced.
  destruct (fetch_user w (tv_username td)) as [r|]; [|reflexivity].
  destruct (bool_decide (py_get r "jwt_token" = JStr (token td))); reflexivity.
Qed.

Lemma verify_token_checks_in_order_witness :
  let w := demo.world_at "tok.alice.2000" true in
  let td := {| tv_username := "alice"; token := "tok.alice.2000" |} in
  classify (verify_token demo.lib w td).2
  = Some (Verify_spec (now w) (demo.alice_claims 2000)
            (fetch_user w (tv_username td)) (token td)).
Proof.
  intros w td.
  apply (verify_token_checks_in_order demo.lib w td (demo.alice_claims 2000)).
  - vm_compute. reflexivity.
  - vm_compute. reflexivity.
  - right. exists 2000. split; [vm_compute; reflexivity|vm_compute; discriminate].
  - intros _. vm_compute. reflexivity.
  - intros _. vm_compute. reflexivity.
Defined.

Lemma py_get_Some (d : dict) (k : string) (v : json) :
  d !! k = Some v -> py_get d k = v.
Proof. intros H. unfold py_get. rewrite H. reflexivity. Qed.

Lemma py_get_None (d : dict) (k : string) :
  d !! k = None -> py_get d k = JNull.
Proof. intros H. unfold py_get. rewrite H. reflexivity. Qed.

Lemma truthy_JStr (s : string) : s <> "" -> truthy (JStr s) = true.
Proof.
  intros H. cbn. destruct (String.eqb_spec s ""); [contradiction|reflexivity].
Qed.

Lemma fromtimestamp_in_range (e : Z) :
  MIN_TIMESTAMP <= e <= MAX_TIMESTAMP -> fromtimestamp (JInt e) = Return e.
Proof.
  intros [H1 H2]. unfold fromtimestamp.
  apply Z.leb_le in H1, H2. rewrite H1, H2. reflexivity.
Qed.

(** C9. [verify_token] never compares the [username] of the request
    with the subject of the token: whenever the token decodes, is not
    expired, carries a subject and an agency_id, and is the token
    stored under the request's [username], the answer is [valid: true]
    with [user_id] and [agency_id] read from the token's claims,
    whatever the request's [username] is. *)
Theorem verify_token_ignores_request_username (L : Lib) (w : world)
    (td : TokenVerify) (p record : dict) (s : string) (a : json) (e : Z) :
  0 <= now w ->
  jwt.decode L (now w) (token td) (SECRET_KEY w) = Return p ->
  p !! "sub" = Some (JStr s) -> s <> "" ->
  p !! "exp" = Some (JInt e) -> now w < e <= MAX_TIMESTAMP ->
  p !! "ngy" = Some a -> truthy a = true ->
  remote_get w (tv_username td) = GetResponse true (BodyJson (Some record)) ->
  record !! "jwt_token" = Some (JStr (token td)) ->
  verify_token L w td
  = ([GET_data (tv_username td) (service_name w)],
     Return {| valid := true; user_id := JStr s; agency_id := a |}).
Proof.
  intros Hnow Hdec Hsub Hs Hexp [He1 He2] Hngy Ha Hget Hrec.
  unfold verify_token. rewrite Hdec, bind_lift_Return.
  rewrite (py_get_Some _ _ _ Hsub), (py_get_Some _ _ _ Hexp), (py_get_Some _ _ _ Hngy).
  rewrite (truthy_JStr s Hs), Ha. cbn [negb].
  rewrite (truthy_JInt e) by lia. cbn [negb].
  rewrite fromtimestamp_in_range by (unfold MIN_TIMESTAMP; lia).
  rewrite bind_lift_Return.
  destruct (Z.leb_spec e (now w)); [lia|].
  rewrite get_user_eq, bind_traced.
  unfold fetch_user. rewrite Hget.
  rewrite bool_decide_eq_false_2.
  2: { intros ->. rewrite lookup_empty in Hrec. discriminate. }
  rewrite (py_get_Some _ _ _ Hrec).
  rewrite bool_decide_eq_true_2 by reflexivity.
  reflexivity.
Qed.

(** A request whose [username] is ["bob"] while the token's subject is
    ["alice"]. *)
Lemma verify_token_ignores_request_username_witness :
  let w := demo.world_of "bob" "tok.alice.2000" true in
  let td := {| tv_username := "bob"; token := "tok.alice.2000" |} in
  tv_username td <> "alice" /\
  verify_token demo.lib w td
  = ([GET_data "bob" "auth"],
     Return {| valid := true; user_id := JStr "alice";
               agency_id := JStr "agency-1" |}).
Proof.
  intros w td. split; [discriminate|].
  apply (verify_token_ignores_request_username demo.lib w td
           (demo.alice_claims 2000) (demo.alice_record "tok.alice.2000")
           "alice" (JStr "agency-1") 2000).
  - vm_compute. discriminate.
  - vm_compute. reflexivity.
  - vm_compute. reflexivity.
  - discriminate.
  - vm_compute. reflexivity.
  - split; [vm_compute; reflexivity|vm_compute; discriminate].
  - vm_compute. reflexivity.
  - reflexivity.
  - reflexivity.
  - vm_compute. reflexivity.
Defined.

Lemma validate_iat_integer (L : Lib) (p : dict) :
  integer_or_absent p "iat" -> jwt._validate_iat L p = Return tt.
Proof.
  unfold jwt._validate_iat. intros [H | [z H]]; rewrite H; reflexivity.
Qed.

Lemma validate_nbf_integer (L : Lib) (now : Z) (p : dict) :
  integer_or_absent p "nbf" ->
  jwt._validate_nbf L now p = Return tt
  \/ jwt._validate_nbf L now p = Raise JWTClaimsError.
Proof.
  unfold jwt._validate_nbf. intros [H | [z H]]; rewrite H; [left; reflexivity|].
  cbn. destruct (now <? z); [right|left]; reflexivity.
Qed.

(** C1. A well-signed token whose expiry lies in the past is rejected
    by [jwt.decode] itself (the library checks ["exp"] by default), so
    [verify_token] answers 400 "Invalid token format" through its
    [except JWTError] clause, and its own expiry check, with 401 "Token
    has expired", is not reached. *)
Theorem verify_token_expired_is_invalid_format (L : Lib) (w : world)
    (td : TokenVerify) (p : dict) (e : Z) :
  jws_verify L (token td) (SECRET_KEY w) = Some p ->
  integer_or_absent p "iat" ->
  integer_or_absent p "nbf" ->
  p !! "exp" = Some (JInt e) ->
  e < now w ->
  jwt.decode L (now w) (token td) (SECRET_KEY w) <> Return p /\
  verify_token L w td
  = ([], Raise (HTTPException HTTP_400_BAD_REQUEST "Invalid token format" [])).
Proof.
  intros Hv Hiat Hnbf Hexp He.
  assert (Hd : jwt.decode L (now w) (token td) (SECRET_KEY w) = Raise JWTClaimsError
               \/ jwt.decode L (now w) (token td) (SECRET_KEY w)
                  = Raise ExpiredSignatureError).
  { unfold jwt.decode, jwt._validate_claims. rewrite Hv.
    rewrite (validate_iat_integer L p Hiat). cbn [mbind outcome_bind].
    destruct (validate_nbf_integer L (now w) p Hnbf) as [-> | ->];
      [|left; reflexivity].
    cbn [mbind outcome_bind]. unfold jwt._validate_exp. rewrite Hexp.
    cbn [jwt.int_claim jwt.py_int mbind outcome_bind].
    destruct (Z.ltb_spec e (now w)); [|lia]. right; reflexivity. }
  unfold verify_token.
  destruct Hd as [-> | ->]; (split; [discriminate|reflexivity]).
Qed.

(** Alice's token with expiry 500, presented at time 1000. *)
Lemma verify_token_expired_is_invalid_format_witness :
  let w := demo.world_at "tok.alice.500" true in
  let td := {| tv_username := "alice"; token := "tok.alice.500" |} in
  jwt.decode demo.lib (now w) (token td) (SECRET_KEY w) <> Return (demo.alice_claims 500) /\
  verify_token demo.lib w td
  = ([], Raise (HTTPException 400 "Invalid token format" [])).
Proof.
  intros w td.
  apply (verify_token_expired_is_invalid_format demo.lib w td
           (demo.alice_claims 500) 500).
  - vm_compute. reflexivity.
  - left. vm_compute. reflexivity.
  - left. vm_compute. reflexivity.
  - vm_compute. reflexivity.
  - vm_compute. reflexivity.
Defined.

(** What [jwt.decode] does with a well-signed token whose expiry has
    passed. *)
Lemma decode_expired_raises (L : Lib) (now : Z) (t key : string) (p : dict)
    (e : Z) :
  jws_verify L t key = Some p ->
  integer_or_absent p "iat" ->
  integer_or_absent p "nbf" ->
  p !! "exp" = Some (JInt e) ->
  e < now ->
  jwt.decode L now t key = Raise JWTClaimsError \/
  jwt.decode L now t key = Raise ExpiredSignatureError.
Proof.
  intros Hv Hiat Hnbf Hexp He.
  unfold jwt.decode, jwt._validate_claims. rewrite Hv.
  rewrite (validate_iat_integer L p Hiat). cbn [mbind outcome_bind].
  destruct (validate_nbf_integer L now p Hnbf) as [-> | ->];
    [|left; reflexivity].
  cbn [mbind outcome_bind]. unfold jwt._validate_exp. rewrite Hexp.
  cbn [jwt.int_claim jwt.py_int mbind outcome_bind].
  destruct (Z.ltb_spec e now); [|lia]. right; reflexivity.
Qed.

(** C2. The order of checks is broken at the expiry check.  For a
    well-signed token that carries a subject and an expiry in the past,
    the specification's cascade stops at [now >= expires_at] and
    answers Unauthorized; [verify_token] answers BadRequest (400
    "Invalid token format") and never reaches its own checks, because
    [jwt.decode] has refused the token first. *)
Theorem verify_token_expired_breaks_check_order (L : Lib) (w : world)
    (td : TokenVerify) (p : dict) (subject : json) (e : Z) :
  jws_verify L (token td) (SECRET_KEY w) = Some p ->
  integer_or_absent p "iat" ->
  integer_or_absent p "nbf" ->
  p !! "sub" = Some subject -> subject <> JNull ->
  p !! "exp" = Some (JInt e) ->
  e < now w ->
  Verify_spec (now w) p (fetch_user w (tv_username td)) (token td)
  = inl Unauthorized /\
  verify_token L w td
  = ([], Raise (HTTPException 400 "Invalid token format" [])) /\
  classify (verify_token L w td).2 = Some (inl BadRequest).
Proof.
  intros Hv Hiat Hnbf Hs Hn Hx He.
  split.
  - unfold Verify_spec. rewrite (py_get_Some _ _ _ Hs), (py_get_Some _ _ _ Hx).
    rewrite (proj2 (absent_false_iff subject) Hn).
    change (absent (JInt e)) with false. cbn [orb].
    destruct (Z.leb_spec e (now w)); [reflexivity|lia].
  - assert (Hr : verify_token L w td
                 = ([], Raise (HTTPException 400 "Invalid token format" []))).
    { unfold verify_token.
      destruct (decode_expired_raises L (now w) _ _ p e Hv Hiat Hnbf Hx He)
        as [-> | ->]; reflexivity. }
    rewrite Hr. split; reflexivity.
Qed.

(** Alice's token with expiry 500, presented at time 1000. *)
Lemma verify_token_expired_breaks_check_order_witness :
  let w := demo.world_at "tok.alice.500" true in
  let td := {| tv_username := "alice"; token := "tok.alice.500" |} in
  Verify_spec (now w) (demo.alice_claims 500) (fetch_user w "alice") (token td)
  = inl Unauthorized /\
  verify_token demo.lib w td
  = ([], Raise (HTTPException 400 "Invalid token format" [])) /\
  classify (verify_token demo.lib w td).2 = Some (inl BadRequest).
Proof.
  intros w td.
  apply (verify_token_expired_breaks_check_order demo.lib w td
           (demo.alice_claims 500) (JStr "alice") 500).
  - vm_compute. reflexivity.
  - left. vm_compute. reflexivity.
  - left. vm_compute. reflexivity.
  - vm_compute. reflexivity.
  - discriminate.
  - vm_compute. reflexivity.
  - vm_compute. reflexivity.
Defined.

(** C8. The rejection of [verify_token] for a token without expiry and
    its rejection for a token without agency_id carry the same status
    and the same reason string, "Invalid token: missing expiration". *)
Theorem verify_token_missing_agency_reuses_expiry_reason (L : Lib) (w : world)
    (td1 td2 : TokenVerify) (p1 p2 : dict) (s1 s2 : string) (e : Z) :
  0 <= now w ->
  jwt.decode L (now w) (token td1) (SECRET_KEY w) = Return p1 ->
  p1 !! "sub" = Some (JStr s1) -> s1 <> "" ->
  p1 !! "exp" = None ->
  jwt.decode L (now w) (token td2) (SECRET_KEY w) = Return p2 ->
  p2 !! "sub" = Some (JStr s2) -> s2 <> "" ->
  p2 !! "exp" = Some (JInt e) -> now w < e <= MAX_TIMESTAMP ->
  p2 !! "ngy" = None ->
  verify_token L w td1
  = ([], Raise (HTTPException 400 "Invalid token: missing expiration" [])) /\
  verify_token L w td2
  = ([], Raise (HTTPException 400 "Invalid token: missing expiration" [])).
Proof.
  intros Hnow Hd1 Hs1 Hn1 Hx1 Hd2 Hs2 Hn2 Hx2 [He1 He2] Hg2.
  split; unfold verify_token.
  - rewrite Hd1, bind_lift_Return.
    rewrite (py_get_Some _ _ _ Hs1), (py_get_None _ _ Hx1), (truthy_JStr s1 Hn1).
    reflexivity.
  - rewrite Hd2, bind_lift_Return.
    rewrite (py_get_Some _ _ _ Hs2), (py_get_Some _ _ _ Hx2), (py_get_None _ _ Hg2),
      (truthy_JStr s2 Hn2).
    rewrite (truthy_JInt e) by lia. cbn [negb].
    rewrite fromtimestamp_in_range by (unfold MIN_TIMESTAMP; lia).
    rewrite bind_lift_Return.
    destruct (Z.leb_spec e (now w)); [lia|]. reflexivity.
Qed.

Lemma verify_token_missing_agency_reuses_expiry_reason_witness :
  let w := demo.world_at "tok.noagency" true in
  verify_token demo.lib w {| tv_username := "alice"; token := "tok.noexp" |}
  = ([], Raise (HTTPException 400 "Invalid token: missing expiration" [])) /\
  verify_token demo.lib w {| tv_username := "alice"; token := "tok.noagency" |}
  = ([], Raise (HTTPException 400 "Invalid token: missing expiration" [])).
Proof.
  intros w.
  apply (verify_token_missing_agency_reuses_expiry_reason demo.lib w
           {| tv_username := "alice"; token := "tok.noexp" |}
           {| tv_username := "alice"; token := "tok.noagency" |}
           {[ "sub" := JStr "alice"; "ngy" := JStr "agency-1" ]}
           {[ "sub" := JStr "alice"; "exp" := JInt 2000 ]}
           "alice" "alice" 2000).
  - vm_compute. discriminate.
  - vm_compute. reflexivity.
  - vm_compute. reflexivity.
  - discriminate.
  - vm_compute. reflexivity.
  - vm_compute. reflexivity.
  - vm_compute. reflexivity.
  - discriminate.
  - vm_compute. reflexivity.
  - split; [vm_compute; reflexivity|vm_compute; discriminate].
  - vm_compute. reflexivity.
Defined.

(** C4. When [jwt.decode] raises on the refresh token, its exception
    leaves the [try] body, the clause [except jwt.PyJWTError] is
    evaluated, [jose.jwt] has no such attribute, and the request ends
    with an [AttributeError] instead of the rejection 400 "Invalid
    refresh token". *)
Theorem refresh_token_decode_failure_escapes (L : Lib) (w : world)
    (td : TokenRefresh) (e : exn) :
  jwt.decode L (now w) (refresh_token_field td) (SECRET_KEY w) = Raise e ->
  refresh_token_try L w td = ([], Raise e) /\
  refresh_token L w td = ([], Raise (AttributeError "PyJWTError")).
Proof.
  intros Hd. unfold refresh_token, refresh_token_try. rewrite Hd.
  split; reflexivity.
Qed.

Lemma refresh_token_decode_failure_escapes_witness :
  let w := demo.world_at "tok.alice.2000" true in
  let td := {| tr_username := "alice"; refresh_token_field := "garbage" |} in
  jwt.decode demo.lib (now w) (refresh_token_field td) (SECRET_KEY w) = Raise JWTError /\
  refresh_token_try demo.lib w td = ([], Raise JWTError) /\
  refresh_token demo.lib w td = ([], Raise (AttributeError "PyJWTError")).
Proof.
  intros w td. split; [vm_compute; reflexivity|].
  apply (refresh_token_decode_failure_escapes demo.lib w td JWTError).
  vm_compute. reflexivity.
Defined.

Lemma isinstance_HTTPException (s : Z) (d : string) (h : list (string * string)) :
  isinstance (HTTPException s d h) cHTTPException = true.
Proof. reflexivity. Qed.

Lemma verify_token_Return_valid (L : Lib) (w : world) (td : TokenVerify)
    (tr : list call) (v : Verified) :
  verify_token L w td = (tr, Return v) -> valid v = true.
Proof.
  unfold verify_token.
  destruct (jwt.decode L (now w) (token td) (SECRET_KEY w)) as [p|e].
  2: { cbn. destruct (isinstance e cJWTError); discriminate. }
  rewrite bind_lift_Return.
  destruct (truthy (py_get p "sub")); cbn [negb]; [|discriminate].
  destruct (truthy (py_get p "exp")); cbn [negb]; [|discriminate].
  destruct (fromtimestamp (py_get p "exp")) as [z|e].
  2: { cbn. destruct (isinstance e cJWTError); discriminate. }
  rewrite bind_lift_Return.
  destruct (z <=? now w); [discriminate|].
  destruct (truthy (py_get p "ngy")); cbn [negb]; [|discriminate].
  rewrite get_user_eq, bind_traced.
  destruct (fetch_user w (tv_username td)) as [r|]; [|discriminate].
  destruct (bool_decide (py_get r "jwt_token" = JStr (token td)));
    cbn; [|discriminate].
  intros [= _ <-]. reflexivity.
Qed.

(** C5 (as the code has it). [logout] first runs [verify_token]; when
    that raises, [logout] ends with the very same exception, status and
    reason included, and sends nothing to the store; when it returns,
    [logout] sends the deletion, and answers 500 when the store's
    response is not ok and the success message when it is. *)
Theorem logout_follows_verify_token (L : Lib) (w : world) (td : TokenVerify) :
  logout L w td
  = match verify_token L w td with
    | (tr, Raise e) => (tr, Raise e)
    | (tr, Return _) =>
        (tr ++ [DELETE_token_delete (service_name w) (tv_username td) (token td)],
         match remote_delete w (tv_username td) (token td) with
         | SendResponse true => Return {| message := "Successfully logged out" |}
         | SendResponse false =>
             Raise (HTTPException HTTP_500_INTERNAL_SERVER_ERROR
                      "Failed to delete token from database" [])
         | SendError => Raise RequestException
         end)
    end.
Proof.
  unfold logout.
  destruct (verify_token L w td) as [tr [v|e]] eqn:Hv.
  - apply verify_token_Return_valid in Hv. rewrite bind_traced, Hv. cbn [negb].
    unfold requests_delete_token.
    destruct (remote_delete w (tv_username td) (token td)) as [|[]];
      cbn; rewrite ?isinstance_HTTPException; cbn; rewrite ?app_nil_r; reflexivity.
  - rewrite bind_traced_Raise. unfold try_except.
    destruct (isinstance e cHTTPException); cbn; rewrite ?app_nil_r; reflexivity.
Qed.

(** A token that does not decode: [verify_token] rejects it with 400,
    and so does [logout]; the rejection is not Unauthorized. *)
Lemma logout_rejection_not_always_unauthorized :
  let w := demo.world_at "tok.alice.2000" true in
  let td := {| tv_username := "alice"; token := "garbage" |} in
  verify_token demo.lib w td
  = ([], Raise (HTTPException 400 "Invalid token format" [])) /\
  logout demo.lib w td
  = ([], Raise (HTTPException 400 "Invalid token format" [])) /\
  classify (logout demo.lib w td).2 <> Some (inl Unauthorized).
Proof. vm_compute. repeat split; discriminate. Qed.





Lemma create_access_token_refreshed (L : Lib) (w : world) (subject : json) :
  create_access_token L w {[ "sub" := subject ]}
    (Some (timedelta_days ACCESS_TOKEN_EXPIRE_DAYS))
  = jws_sign L (refreshed_claims w subject) (SECRET_KEY w).
Proof.
  unfold create_access_token, jwt.encode, refreshed_claims.
  change (Z.eqb (timedelta_days ACCESS_TOKEN_EXPIRE_DAYS) 0) with false.
  cbv iota.
  destruct (jws_sign L _ (SECRET_KEY w)); reflexivity.
Qed.

Lemma refreshed_claims_keys (w : world) (subject : json) (k : string) :
  is_Some (refreshed_claims w subject !! k) <-> k = "sub" \/ k = "exp".
Proof.
  unfold refreshed_claims.
  rewrite lookup_insert_is_Some, lookup_singleton_is_Some.
  split.
  - intros [<- | [_ <-]]; auto.
  - intros [-> | ->]; [right; split; [discriminate|reflexivity]|left; reflexivity].
Qed.

Lemma decoded_subject_not_None (L : Lib) (now : Z) (t key : string) (p : dict)
    (v : json) :
  jwt.decode L now t key = Return p -> p !! "sub" = Some v -> py_get p "sub" = v /\ v <> JNull.
Proof.
  intros Hd Hs. apply decode_Return in Hd as [_ Hval].
  apply validate_claims_sub in Hval as [H | [s H]]; [congruence|].
  rewrite (py_get_Some _ _ _ Hs). split; [reflexivity|]. congruence.
Qed.

(** What [refresh_token] does once the token has been decoded and
    carries a subject. *)
Lemma refresh_token_decoded (L : Lib) (w : world) (td : TokenRefresh)
    (p : dict) (v : json) :
  jwt.decode L (now w) (refresh_token_field td) (SECRET_KEY w) = Return p ->
  p !! "sub" = Some v ->
  refresh_token L w td
  = match jws_sign L (refreshed_claims w v) (SECRET_KEY w) with
    | Some t =>
        if String.eqb t "" then ([], Raise (AttributeError "PyJWTError"))
        else ([POST_token_update (service_name w) (tr_username td) t],
              if save_token w (tr_username td) t then Return (bearer t)
              else Raise (AttributeError "PyJWTError"))
    | None => ([], Raise (AttributeError "PyJWTError"))
    end.
Proof.
  intros Hd Hs. destruct (decoded_subject_not_None _ _ _ _ _ _ Hd Hs) as [Hg Hn].
  unfold refresh_token, refresh_token_try. rewrite Hd, bind_lift_Return, Hg.
  rewrite bool_decide_eq_false_2 by exact Hn.
  rewrite create_access_token_refreshed.
  destruct (jws_sign L (refreshed_claims w v) (SECRET_KEY w)) as [t|]; [|reflexivity].
  cbn [not_token]. destruct (String.eqb t ""); [reflexivity|].
  rewrite update_token_in_DB_eq, bind_traced.
  destruct (save_token w (tr_username td) t); cbn; rewrite ?app_nil_r; reflexivity.
Qed.

(** C7 (as the code has it). For a refresh token that decodes and
    carries a subject, the claims of the newly minted token are the
    subject and the expiry and nothing else (no agency_id); a token is
    returned only if the store accepted it, so when persisting fails no
    token is returned. *)
Theorem refresh_token_mints_subject_only (L : Lib) (w : world)
    (td : TokenRefresh) (p : dict) (v : json) :
  jwt.decode L (now w) (refresh_token_field td) (SECRET_KEY w) = Return p ->
  p !! "sub" = Some v ->
  refreshed_claims w v !! "sub" = Some v /\
  refreshed_claims w v !! "ngy" = None /\
  (forall k, is_Some (refreshed_claims w v !! k) <-> k = "sub" \/ k = "exp") /\
  (forall tr body,
      refresh_token L w td = (tr, Return body) ->
      jws_sign L (refreshed_claims w v) (SECRET_KEY w) = Some (access_token body) /\
      save_token w (tr_username td) (access_token body) = true) /\
  (forall t,
      jws_sign L (refreshed_claims w v) (SECRET_KEY w) = Some t ->
      save_token w (tr_username td) t = false ->
      forall tr body, refresh_token L w td <> (tr, Return body)).
Proof.
  intros Hd Hs.
  assert (Hret : forall tr body,
      refresh_token L w td = (tr, Return body) ->
      jws_sign L (refreshed_claims w v) (SECRET_KEY w) = Some (access_token body) /\
      save_token w (tr_username td) (access_token body) = true).
  { intros tr body. rewrite (refresh_token_decoded L w td p v Hd Hs).
    destruct (jws_sign L (refreshed_claims w v) (SECRET_KEY w)) as [t|]; [|discriminate].
    destruct (String.eqb t ""); [discriminate|].
    destruct (save_token w (tr_username td) t) eqn:Hsave; [|discriminate].
    intros [= _ <-]. cbn. auto. }
  split; [|split; [|split; [|split]]].
  - unfold refreshed_claims. rewrite lookup_insert_ne by done.
    apply lookup_singleton_eq.
  - apply eq_None_not_Some. rewrite refreshed_claims_keys.
    intros [? | ?]; discriminate.
  - apply refreshed_claims_keys.
  - exact Hret.
  - intros t Ht Hsave tr body Hr. apply Hret in Hr as [Hr1 Hr2].
    rewrite Ht in Hr1. injection Hr1 as ->. congruence.
Qed.

Lemma refresh_token_mints_subject_only_witness :
  let w := demo.world_at "tok.alice.2000" true in
  let td := {| tr_username := "alice"; refresh_token_field := "tok.alice.2000" |} in
  refresh_token demo.lib w td
  = ([POST_token_update "auth" "alice" "tok.refreshed"], Return (bearer "tok.refreshed")) /\
  jws_sign demo.lib (refreshed_claims w (JStr "alice")) (SECRET_KEY w)
  = Some "tok.refreshed" /\
  refreshed_claims w (JStr "alice") !! "ngy" = None.
Proof.
  intros w td.
  assert (Hr : refresh_token demo.lib w td
               = ([POST_token_update "auth" "alice" "tok.refreshed"],
                  Return (bearer "tok.refreshed"))) by (vm_compute; reflexivity).
  destruct (refresh_token_mints_subject_only demo.lib w td
              (demo.alice_claims 2000) (JStr "alice"))
    as (_ & Hngy & _ & Hret & _).
  - vm_compute. reflexivity.
  - vm_compute. reflexivity.
  - split; [exact Hr|]. split; [|exact Hngy].
    exact (proj1 (Hret _ _ Hr)).
Defined.

(** The store refuses the write: the [try] body raises 400 "Token
    update in DB error", which is replaced by an [AttributeError] when
    the [except] clause is evaluated; neither is an InternalError
    rejection. *)
Lemma refresh_store_failure_not_internal_error :
  let w := demo.world_at "tok.alice.2000" false in
  let td := {| tr_username := "alice"; refresh_token_field := "tok.alice.2000" |} in
  save_token w "alice" "tok.refreshed" = false /\
  refresh_token_try demo.lib w td
  = ([POST_token_update "auth" "alice" "tok.refreshed"],
     Raise (HTTPException 400 "Token update in DB error" [])) /\
  classify (refresh_token_try demo.lib w td).2 <> Some (inl InternalError) /\
  refresh_token demo.lib w td
  = ([POST_token_update "auth" "alice" "tok.refreshed"],
     Raise (AttributeError "PyJWTError")) /\
  classify (refresh_token demo.lib w td).2 <> Some (inl InternalError).
Proof. vm_compute. repeat split; discriminate. Qed.

(** C10. [refresh_token] mints without asking the store which token is
    active: for a refresh token that decodes and carries a subject, the
    only call sent is the update, which files the new token under the
    [username] of the request; the subject of the new token is the one
    of the presented token; the request's [username] is not compared
    with it, and the store's reply to a lookup plays no part. *)
Theorem refresh_token_never_consults_store (L : Lib) (w : world)
    (td : TokenRefresh) (p : dict) (v : json) (t : string) :
  jwt.decode L (now w) (refresh_token_field td) (SECRET_KEY w) = Return p ->
  p !! "sub" = Some v ->
  jws_sign L (refreshed_claims w v) (SECRET_KEY w) = Some t ->
  t <> "" ->
  remote_update w (tr_username td) t = SendResponse true ->
  refreshed_claims w v !! "sub" = Some v /\
  refresh_token L w td
  = ([POST_token_update (service_name w) (tr_username td) t], Return (bearer t)).
Proof.
  intros Hd Hs Ht Hne Hup. split.
  { unfold refreshed_claims. rewrite lookup_insert_ne by done.
    apply lookup_singleton_eq. }
  rewrite (refresh_token_decoded L w td p v Hd Hs), Ht.
  destruct (String.eqb_spec t ""); [contradiction|].
  unfold save_token. rewrite Hup. reflexivity.
Qed.

(** Alice's token is presented under the username ["bob"], while the
    store holds another token as alice's active one and knows no bob. *)
Lemma refresh_token_never_consults_store_witness :
  let w := demo.world_at "tok.login" true in
  let td := {| tr_username := "bob"; refresh_token_field := "tok.alice.2000" |} in
  fetch_user w "bob" = None /\
  refresh_token demo.lib w td
  = ([POST_token_update "auth" "bob" "tok.refreshed"], Return (bearer "tok.refreshed")).
Proof.
  intros w td. split; [vm_compute; reflexivity|].
  apply (refresh_token_never_consults_store demo.lib w td
           (demo.alice_claims 2000) (JStr "alice") "tok.refreshed").
  - vm_compute. reflexivity.
  - vm_compute. reflexivity.
  - vm_compute. reflexivity.
  - discriminate.
  - reflexivity.
Defined.

(** With any library whose signature verification accepts what its
    signing produced: for claims made of a subject, an agency_id and an
    expiry in the future, decoding the token that encoding produced,
    with the same key, gives back the same claims. *)
Theorem decode_encode_roundtrip (L : Lib) (now : Z) (key : string)
    (subject : string) (agency : json) (expires_at : Z) (t : string) :
  sign_verify_roundtrip L ->
  now < expires_at ->
  let claims : dict :=
    {[ "sub" := JStr subject; "ngy" := agency; "exp" := JInt expires_at ]} in
  jwt.encode L claims key = Return t ->
  jwt.decode L now t key = Return claims.
Proof.
  intros Hrt Hfut claims Henc.
  unfold jwt.encode in Henc.
  destruct (jws_sign L claims key) as [t'|] eqn:Hs; [|discriminate].
  injection Henc as ->. apply Hrt in Hs.
  apply decode_Return. split; [exact Hs|].
  unfold jwt._validate_claims, jwt._validate_iat, jwt._validate_nbf,
    jwt._validate_exp, jwt._validate_aud, jwt._validate_sub, jwt._validate_jti,
    jwt._validate_at_hash.
  assert (Hexp : claims !! "exp" = Some (JInt expires_at)).
  { unfold claims. rewrite !lookup_insert_ne by done. apply lookup_singleton_eq. }
  assert (Hsub : claims !! "sub" = Some (JStr subject)).
  { unfold claims. apply lookup_insert_eq. }
  assert (Hother : forall k, k <> "sub" -> k <> "ngy" -> k <> "exp" -> claims !! k = None).
  { intros k H1 H2 H3. unfold claims.
    rewrite !lookup_insert_ne by done. apply lookup_singleton_ne. done. }
  rewrite !(Hother "iat"), !(Hother "nbf"), !(Hother "aud"), !(Hother "jti"),
    !(Hother "at_hash") by done.
  rewrite Hexp, Hsub. cbn.
  destruct (Z.ltb_spec expires_at now); [lia|reflexivity].
Qed.

Lemma demo_sign_verify_roundtrip : sign_verify_roundtrip demo.lib.
Proof.
  intros claims key t. cbn. unfold demo.sign, demo.verify.
  destruct (String.eqb key "secret"); [|discriminate].
  destruct (List.find _ demo.table) as [[t' c]|] eqn:Hf; [|discriminate].
  cbn. intros [= ->].
  apply find_some in Hf as [Hin Heq]. apply bool_decide_eq_true in Heq.
  cbn in Heq. subst c.
  unfold demo.table in Hin. cbn [In] in Hin.
  repeat (destruct Hin as [[= <- <-] | Hin]; [vm_compute; reflexivity|]).
  destruct Hin.
Qed.

Lemma decode_encode_roundtrip_witness :
  jwt.encode demo.lib (demo.alice_claims 2000) "secret" = Return "tok.alice.2000" /\
  jwt.decode demo.lib 1000 "tok.alice.2000" "secret" = Return (demo.alice_claims 2000).
Proof.
  assert (He : jwt.encode demo.lib (demo.alice_claims 2000) "secret"
               = Return "tok.alice.2000") by (vm_compute; reflexivity).
  split; [exact He|].
  apply (decode_encode_roundtrip demo.lib 1000 "secret" "alice" (JStr "agency-1")
           2000 "tok.alice.2000").
  - exact demo_sign_verify_roundtrip.
  - lia.
  - exact He.
Defined.

(** ** Further properties: the store client *)

(** X1. [get_user] never raises and sends exactly one request.  It
    returns the ["data"] member of the reply, whatever its type,
    exactly when the store answered with an ok status and a JSON object
    whose ["data"] member is truthy; in every other case (transport
    error, error status, a body that is not JSON or not an object,
    ["data"] missing, null, empty or otherwise falsy) it returns
    [None]. *)
Theorem get_user_any_folds_failures (name : string) (reply : any_reply)
    (u : string) :
  exists r,
    get_user_any name reply u = ([GET_data u name], Return r) /\
    forall v, r = Some v <->
              exists members,
                reply = AnyResponse true (AnyJson (JObj members)) /\
                py_get (list_to_map (reverse members)) "data" = v /\
                truthy v = true.
Proof.
  assert (Hnone : forall r0 : any_reply,
             get_user_any name r0 u = ([GET_data u name], Return None) ->
             (forall members,
                 r0 = AnyResponse true (AnyJson (JObj members)) ->
                 truthy (py_get (list_to_map (reverse members)) "data")
                 = false) ->
             exists r,
               get_user_any name r0 u = ([GET_data u name], Return r) /\
               forall v, r = Some v <->
                         exists members,
                           r0 = AnyResponse true (AnyJson (JObj members)) /\
                           py_get (list_to_map (reverse members)) "data" = v /\
                           truthy v = true).
  { intros r0 He Hn. exists None. split; [exact He|].
    intros v. split; [discriminate|].
    intros (members & H & Hv & T). rewrite <- Hv, (Hn members H) in T.
    discriminate. }
  destruct reply as [|ok body].
  - apply Hnone; [reflexivity|discriminate].
  - destruct ok.
    + destruct body as [|response_json].
      * apply Hnone; [reflexivity|discriminate].
      * destruct response_json as [| | | | |members];
          try (apply Hnone; [reflexivity|discriminate]).
        destruct (truthy (py_get (list_to_map (reverse members)) "data"))
          eqn:T.
        -- exists (Some (py_get (list_to_map (reverse members)) "data")).
           split.
           ++ unfold get_user_any.
              cbn. rewrite T. reflexivity.
           ++ intros v. split.
              ** intros [= <-]. exists members. auto.
              ** intros (m' & [= <-] & <- & _). reflexivity.
        -- apply Hnone.
           ++ unfold get_user_any. cbn. rewrite T. reflexivity.
           ++ intros m' [= <-]. exact T.
    + apply Hnone; [|discriminate].
      destruct body as [|response_json]; reflexivity.
Qed.

(** On the replies of the store's contract, [get_user_any] is
    [get_user]: the record, as a JSON object. *)
Lemma get_user_any_of_reply (w : world) (u : string) :
  get_user_any (service_name w) (any_of_reply (remote_get w u)) u
  = ([GET_data u (service_name w)],
     Return ((fun d : dict => JObj (map_to_list d)) <$> fetch_user w u)).
Proof.
  unfold get_user_any, fetch_user, any_of_reply.
  destruct (remote_get w u) as [|[] [|[d|]]]; try reflexivity.
  destruct (map_to_list d) as [|kv l] eqn:E.
  - apply map_to_list_empty_iff in E. subst d.
    rewrite bool_decide_eq_true_2 by reflexivity. reflexivity.
  - rewrite bool_decide_eq_false_2.
    + change ((fun d : dict => JObj (map_to_list d)) <$> Some d)
        with (Some (JObj (map_to_list d))).
      rewrite E. reflexivity.
    + intros ->. rewrite map_to_list_empty in E. discriminate.
Qed.

(** X2. [update_token_in_DB] never raises and sends exactly one update,
    for the given username and token; it returns [True] exactly when
    the store answered with an ok status. *)
Theorem update_token_in_DB_never_raises (w : world) (u t : string) :
  exists b,
    update_token_in_DB w u t
    = ([POST_token_update (service_name w) u t], Return b) /\
    (b = true <-> remote_update w u t = SendResponse true).
Proof.
  exists (save_token w u t). split; [apply update_token_in_DB_eq|].
  unfold save_token. destruct (remote_update w u t) as [|[]]; split;
    congruence.
Qed.

(** ** Further properties: minting *)

(** X3. Whenever [create_access_token] returns a token, it is the
    signature of the given claims with ["exp"] set (replacing any
    ["exp"] the caller passed): to [now + expires_delta], or to [now +
    7 days] when no delta or a zero delta is given. *)
Theorem create_access_token_claims (L : Lib) (w : world) (data : dict)
    (expires_delta : option Z) (t : string) :
  create_access_token L w data expires_delta = Some t ->
  exists (c : dict) (e : Z),
    jws_sign L c (SECRET_KEY w) = Some t /\
    c !! "exp" = Some (JInt e) /\
    (forall k, k <> "exp" -> c !! k = data !! k) /\
    (expires_delta = None \/ expires_delta = Some 0 -> e = now w + 604800) /\
    (forall d, expires_delta = Some d -> d <> 0 -> e = now w + d).
Proof.
  unfold create_access_token, jwt.encode. intros H.
  match type of H with
  | context [<["exp" := JInt ?e]> data] => exists (<["exp" := JInt e]> data), e
  end.
  split; [|split; [|split; [|split]]].
  - destruct (jws_sign L _ (SECRET_KEY w)); [congruence|discriminate].
  - apply lookup_insert_eq.
  - intros k Hk. apply lookup_insert_ne. congruence.
  - intros [-> | ->]; reflexivity.
  - intros d -> Hd. destruct (Z.eqb_spec d 0); [contradiction|reflexivity].
Qed.

Lemma create_access_token_claims_witness :
  exists (c : dict) (e : Z),
    jws_sign demo.lib c "secret" = Some "tok.login" /\
    c !! "exp" = Some (JInt e) /\
    e = 1000 + 604800.
Proof.
  destruct (create_access_token_claims demo.lib (demo.world_at "" true)
              {[ "sub" := JStr "alice"; "ngy" := JStr "agency-1";
                 "exp" := JInt 1 ]} (Some 0) "tok.login")
    as (c & e & Hs & He & _ & Hd & _).
  - vm_compute. reflexivity.
  - exists c, e. split; [exact Hs|]. split; [exact He|].
    apply Hd. right. reflexivity.
Defined.

Lemma create_access_token_week (L : Lib) (w : world) (data : dict) :
  create_access_token L w data (Some (timedelta_days ACCESS_TOKEN_EXPIRE_DAYS))
  = jws_sign L (<["exp" := JInt (now w + 604800)]> data) (SECRET_KEY w).
Proof.
  unfold create_access_token, jwt.encode.
  change (Z.eqb (timedelta_days ACCESS_TOKEN_EXPIRE_DAYS) 0) with false.
  cbv iota. change (timedelta_days ACCESS_TOKEN_EXPIRE_DAYS) with 604800.
  destruct (jws_sign L _ (SECRET_KEY w)); reflexivity.
Qed.

Lemma py_getitem_Some (d : dict) (k : string) (v : json) :
  d !! k = Some v -> py_getitem d k = Return v.
Proof. intros H. unfold py_getitem. rewrite H. reflexivity. Qed.

Lemma py_getitem_None (d : dict) (k : string) :
  d !! k = None -> py_getitem d k = Raise (KeyError k).
Proof. intros H. unfold py_getitem. rewrite H. reflexivity. Qed.

(** The claims [login] and [login_for_access_token] sign. *)
Lemma login_claims_lookup (sub ngy : json) (e : Z) :
  let c : dict := <["exp" := JInt e]> {[ "sub" := sub; "ngy" := ngy ]} in
  c !! "sub" = Some sub /\ c !! "ngy" = Some ngy /\ c !! "exp" = Some (JInt e) /\
  forall k, k <> "sub" -> k <> "ngy" -> k <> "exp" -> c !! k = None.
Proof.
  intros c. unfold c. split; [|split; [|split]].
  - rewrite lookup_insert_ne by done. apply lookup_insert_eq.
  - rewrite !lookup_insert_ne by done. apply lookup_singleton_eq.
  - apply lookup_insert_eq.
  - intros k H1 H2 H3. rewrite !lookup_insert_ne by done.
    apply lookup_singleton_ne. done.
Qed.

(** What has happened when [login] returns. *)
Lemma login_Return_inv (L : Lib) (w : world) (c : User) (tr : list call)
    (body : Token) :
  login L w c = (tr, Return body) ->
  exists (user : dict) (hashed sub ngy : json),
    fetch_user w (username c) = Some user /\
    user !! "password" = Some hashed /\
    pwd_verify L (password c) hashed = Some true /\
    user !! "login" = Some sub /\
    user !! "agency_id" = Some ngy /\
    jws_sign L (<["exp" := JInt (now w + 604800)]> {[ "sub" := sub; "ngy" := ngy ]})
      (SECRET_KEY w) = Some (access_token body) /\
    access_token body <> "" /\
    token_type body = "bearer" /\
    remote_update w (username c) (access_token body) = SendResponse true /\
    tr = [GET_data (username c) (service_name w);
          POST_token_update (service_name w) (username c) (access_token body)].
Proof.
  unfold login. rewrite get_user_eq, bind_traced.
  destruct (fetch_user w (username c)) as [user|]; [|discriminate].
  destruct (user !! "password") as [hashed|] eqn:Hp.
  2: { rewrite (py_getitem_None _ _ Hp). discriminate. }
  rewrite (py_getitem_Some _ _ _ Hp), bind_lift_Return.
  unfold verify_password.
  destruct (pwd_verify L (password c) hashed) as [[]|] eqn:Hv; try discriminate.
  rewrite bind_lift_Return. cbn [negb].
  destruct (user !! "login") as [sub|] eqn:Hl.
  2: { rewrite (py_getitem_None _ _ Hl). discriminate. }
  rewrite (py_getitem_Some _ _ _ Hl), bind_lift_Return.
  destruct (user !! "agency_id") as [ngy|] eqn:Ha.
  2: { rewrite (py_getitem_None _ _ Ha). discriminate. }
  rewrite (py_getitem_Some _ _ _ Ha), bind_lift_Return.
  rewrite create_access_token_week.
  destruct (jws_sign L _ (SECRET_KEY w)) as [tok|] eqn:Hs; [|discriminate].
  cbn [not_token]. destruct (String.eqb_spec tok ""); [discriminate|].
  rewrite update_token_in_DB_eq, bind_traced. unfold save_token.
  destruct (remote_update w (username c) tok) as [|[]] eqn:Hu; try discriminate.
  cbn. intros [= <- <-].
  exists user, hashed, sub, ngy. cbn. auto 12.
Qed.

(** X4. [login] returns a token only after the whole chain has gone
    through: the store has a record for the user, the password matches
    the record's hash, the token is the signature of exactly the claims
    [sub] = the record's ["login"], [ngy] = the record's ["agency_id"]
    and [exp] = now + 7 days, and the store has accepted the token
    under the request's username; the calls made are one lookup
    followed by one update. *)
Theorem login_returns_only_after_full_chain (L : Lib) (w : world) (c : User)
    (tr : list call) (body : Token) :
  login L w c = (tr, Return body) ->
  exists (user : dict) (hashed sub ngy : json),
    fetch_user w (username c) = Some user /\
    user !! "password" = Some hashed /\
    pwd_verify L (password c) hashed = Some true /\
    user !! "login" = Some sub /\
    user !! "agency_id" = Some ngy /\
    jws_sign L (<["exp" := JInt (now w + 604800)]> {[ "sub" := sub; "ngy" := ngy ]})
      (SECRET_KEY w) = Some (access_token body) /\
    access_token body <> "" /\
    token_type body = "bearer" /\
    remote_update w (username c) (access_token body) = SendResponse true /\
    tr = [GET_data (username c) (service_name w);
          POST_token_update (service_name w) (username c) (access_token body)].
Proof. apply login_Return_inv. Qed.

Lemma login_returns_only_after_full_chain_witness :
  exists (user : dict) (hashed : json),
    fetch_user (demo.world_at "" true) "alice" = Some user /\
    user !! "password" = Some hashed /\
    pwd_verify demo.lib "correct" hashed = Some true.
Proof.
  destruct (login_returns_only_after_full_chain demo.lib (demo.world_at "" true)
              {| username := "alice"; password := "correct" |}
              [GET_data "alice" "auth"; POST_token_update "auth" "alice" "tok.login"]
              {| access_token := "tok.login"; token_type := "bearer" |})
    as (user & hashed & sub & ngy & H1 & H2 & H3 & _).
  - vm_compute. reflexivity.
  - exists user, hashed. auto.
Defined.

(** X5. The converse: with a record in the store, a matching password,
    the fields ["login"] and ["agency_id"] present, a non-empty
    signature and a store that accepts the write, [login] returns the
    bearer token after one lookup and one update. *)
Theorem login_succeeds (L : Lib) (w : world) (c : User) (user : dict)
    (hashed sub ngy : json) (t : string) :
  remote_get w (username c) = GetResponse true (BodyJson (Some user)) ->
  user !! "password" = Some hashed ->
  pwd_verify L (password c) hashed = Some true ->
  user !! "login" = Some sub ->
  user !! "agency_id" = Some ngy ->
  jws_sign L (<["exp" := JInt (now w + 604800)]> {[ "sub" := sub; "ngy" := ngy ]})
    (SECRET_KEY w) = Some t ->
  t <> "" ->
  remote_update w (username c) t = SendResponse true ->
  login L w c
  = ([GET_data (username c) (service_name w);
      POST_token_update (service_name w) (username c) t],
     Return {| access_token := t; token_type := "bearer" |}).
Proof.
  intros Hg Hp Hv Hl Ha Hs Ht Hu.
  unfold login. rewrite get_user_eq, bind_traced.
  unfold fetch_user. rewrite Hg.
  rewrite bool_decide_eq_false_2.
  2: { intros ->. rewrite lookup_empty in Hp. discriminate. }
  rewrite (py_getitem_Some _ _ _ Hp), bind_lift_Return.
  unfold verify_password. rewrite Hv, bind_lift_Return. cbn [negb].
  rewrite (py_getitem_Some _ _ _ Hl), bind_lift_Return.
  rewrite (py_getitem_Some _ _ _ Ha), bind_lift_Return.
  rewrite create_access_token_week, Hs. cbn [not_token].
  destruct (String.eqb_spec t ""); [contradiction|].
  rewrite update_token_in_DB_eq, bind_traced. unfold save_token. rewrite Hu.
  reflexivity.
Qed.

Lemma login_succeeds_witness :
  login demo.lib (demo.world_at "" true) {| username := "alice"; password := "correct" |}
  = ([GET_data "alice" "auth"; POST_token_update "auth" "alice" "tok.login"],
     Return {| access_token := "tok.login"; token_type := "bearer" |}).
Proof.
  apply (login_succeeds demo.lib (demo.world_at "" true)
           {| username := "alice"; password := "correct" |}
           (demo.alice_record "") (JStr "hash:correct") (JStr "alice")
           (JStr "agency-1") "tok.login").
  - reflexivity.
  - vm_compute. reflexivity.
  - vm_compute. reflexivity.
  - vm_compute. reflexivity.
  - vm_compute. reflexivity.
  - vm_compute. reflexivity.
  - discriminate.
  - reflexivity.
Defined.

(** Closes a goal whose hypothesis [H] says that an update belongs to a
    trace that has none. *)
Ltac no_update_in_trace H :=
  cbn in H;
  repeat (apply elem_of_cons in H as [H|H]; [discriminate H|]);
  apply elem_of_nil in H; destruct H.

Lemma login_update_in_trace (L : Lib) (w : world) (c : User) (n u t : string) :
  POST_token_update n u t ∈ (login L w c).1 ->
  u = username c /\
  exists (user : dict) (hashed : json),
    fetch_user w (username c) = Some user /\
    user !! "password" = Some hashed /\
    pwd_verify L (password c) hashed = Some true.
Proof.
  unfold login. rewrite get_user_eq, bind_traced.
  destruct (fetch_user w (username c)) as [user|]; [|intros H; no_update_in_trace H].
  destruct (user !! "password") as [hashed|] eqn:Hp.
  2: { rewrite (py_getitem_None _ _ Hp). intros H; no_update_in_trace H. }
  rewrite (py_getitem_Some _ _ _ Hp), bind_lift_Return.
  unfold verify_password.
  destruct (pwd_verify L (password c) hashed) as [[]|] eqn:Hv;
    [|intros H; no_update_in_trace H..].
  rewrite bind_lift_Return. cbn [negb].
  intros H. split; [|eauto].
  revert H.
  destruct (py_getitem user "login") as [sub|]; [|intros H; no_update_in_trace H].
  rewrite bind_lift_Return.
  destruct (py_getitem user "agency_id") as [ngy|]; [|intros H; no_update_in_trace H].
  rewrite bind_lift_Return.
  destruct (create_access_token L w _ _) as [tok|]; [|intros H; no_update_in_trace H].
  cbn [not_token]. destruct (String.eqb tok ""); [intros H; no_update_in_trace H|].
  rewrite update_token_in_DB_eq, bind_traced.
  destruct (save_token w (username c) tok); cbn; intros H;
    apply elem_of_cons in H as [H|H]; try discriminate H;
    apply elem_of_cons in H as [H|H]; try (apply elem_of_nil in H; destruct H);
    congruence.
Qed.

Lemma token_create_update_in_trace (L : Lib) (w : world) (c : User)
    (n u t : string) :
  POST_token_update n u t ∈ (login_for_access_token L w c).1 ->
  u = username c /\
  exists (user : dict) (hashed : json),
    fetch_user w (username c) = Some user /\
    user !! "password" = Some hashed /\
    pwd_verify L (password c) hashed = Some true.
Proof.
  unfold login_for_access_token. rewrite get_user_eq, bind_traced.
  destruct (fetch_user w (username c)) as [user|]; [|intros H; no_update_in_trace H].
  destruct (user !! "password") as [hashed|] eqn:Hp.
  2: { rewrite (py_getitem_None _ _ Hp). intros H; no_update_in_trace H. }
  rewrite (py_getitem_Some _ _ _ Hp), bind_lift_Return.
  unfold verify_password.
  destruct (pwd_verify L (password c) hashed) as [[]|] eqn:Hv;
    [|intros H; no_update_in_trace H..].
  rewrite bind_lift_Return. cbn [negb].
  intros H. split; [|eauto].
  revert H.
  destruct (py_getitem user "login") as [sub|]; [|intros H; no_update_in_trace H].
  rewrite bind_lift_Return.
  destruct (py_getitem user "agency_id") as [ngy|]; [|intros H; no_update_in_trace H].
  rewrite bind_lift_Return.
  destruct (create_access_token L w _ _) as [tok|]; [|intros H; no_update_in_trace H].
  cbn [not_token]. destruct (String.eqb tok ""); [intros H; no_update_in_trace H|].
  rewrite update_token_in_DB_eq, bind_traced.
  destruct (save_token w (username c) tok); cbn; intros H;
    apply elem_of_cons in H as [H|H]; try discriminate H;
    apply elem_of_cons in H as [H|H]; try (apply elem_of_nil in H; destruct H);
    congruence.
Qed.

(** X6. Neither [login] nor [login_for_access_token] writes a token to
    the store unless the store returned a record for the user and the
    submitted password matched its hash; and a write is always filed
    under the username of the request. *)
Theorem store_write_requires_verified_password (L : Lib) (w : world) (c : User)
    (n u t : string) :
  POST_token_update n u t ∈ (login L w c).1 \/
  POST_token_update n u t ∈ (login_for_access_token L w c).1 ->
  u = username c /\
  exists (user : dict) (hashed : json),
    fetch_user w (username c) = Some user /\
    user !! "password" = Some hashed /\
    pwd_verify L (password c) hashed = Some true.
Proof.
  intros [H | H];
    [apply (login_update_in_trace L w c n u t H)
    |apply (token_create_update_in_trace L w c n u t H)].
Qed.

Lemma store_write_requires_verified_password_witness :
  exists (user : dict) (hashed : json),
    fetch_user (demo.world_at "" false) "alice" = Some user /\
    user !! "password" = Some hashed /\
    pwd_verify demo.lib "correct" hashed = Some true.
Proof.
  destruct (store_write_requires_verified_password demo.lib
              (demo.world_at "" false)
              {| username := "alice"; password := "correct" |}
              "auth" "alice" "tok.login") as [_ H].
  - left. vm_compute. apply elem_of_cons. right. apply elem_of_cons. left.
    reflexivity.
  - exact H.
Defined.

(** X7. When the record the store returns lacks ["password"],
    ["login"] or ["agency_id"], [login] never returns a token and never
    writes to the store: it ends with a [KeyError] for a missing key,
    unless the password check stops it first. *)
Theorem login_incomplete_record (L : Lib) (w : world) (c : User) (user : dict) :
  fetch_user w (username c) = Some user ->
  user !! "password" = None \/ user !! "login" = None \/ user !! "agency_id" = None ->
  (login L w c).1 = [GET_data (username c) (service_name w)] /\
  ((exists k, (login L w c).2 = Raise (KeyError k) /\ user !! k = None) \/
   (login L w c).2 = Raise (HTTPException 401 "Incorrect password" []) \/
   (login L w c).2 = Raise PasslibError).
Proof.
  intros Hf Hmiss. unfold login. rewrite get_user_eq, bind_traced, Hf.
  destruct (user !! "password") as [hashed|] eqn:Hp.
  2: { rewrite (py_getitem_None _ _ Hp). split; [reflexivity|]. left. eauto. }
  rewrite (py_getitem_Some _ _ _ Hp), bind_lift_Return.
  unfold verify_password.
  destruct (pwd_verify L (password c) hashed) as [[]|];
    [|split; [reflexivity|auto]..].
  rewrite bind_lift_Return. cbn [negb].
  destruct (user !! "login") as [sub|] eqn:Hl.
  2: { rewrite (py_getitem_None _ _ Hl). split; [reflexivity|]. left. eauto. }
  rewrite (py_getitem_Some _ _ _ Hl), bind_lift_Return.
  destruct (user !! "agency_id") as [ngy|] eqn:Ha.
  2: { rewrite (py_getitem_None _ _ Ha). split; [reflexivity|]. left. eauto. }
  destruct Hmiss as [? | [? | ?]]; discriminate.
Qed.

(** X8. [login_for_access_token] answers an unknown user and a wrong
    password with one and the same exception, while [login] tells the
    two apart by its reason string. *)
Theorem token_create_hides_which_credential_failed (L : Lib) (w : world)
    (c : User) :
  fetch_user w (username c) = None \/
  (exists (user : dict) (hashed : json),
      fetch_user w (username c) = Some user /\
      user !! "password" = Some hashed /\
      pwd_verify L (password c) hashed = Some false) ->
  login_for_access_token L w c
  = ([GET_data (username c) (service_name w)],
     Raise (HTTPException 401 "Incorrect username or password"
              [("WWW-Authenticate", "Bearer")])) /\
  login L w c
  = ([GET_data (username c) (service_name w)],
     Raise (HTTPException 401
              (match fetch_user w (username c) with
               | None => "User not found"
               | Some _ => "Incorrect password"
               end) [])).
Proof.
  unfold login_for_access_token, login. rewrite get_user_eq, !bind_traced.
  intros [Hf | (user & hashed & Hf & Hp & Hv)]; rewrite Hf.
  - split; reflexivity.
  - rewrite (py_getitem_Some _ _ _ Hp), !bind_lift_Return.
    unfold verify_password. rewrite Hv, !bind_lift_Return.
    split; reflexivity.
Qed.

Lemma token_create_hides_which_credential_failed_witness :
  login_for_access_token demo.lib (demo.world_at "" true)
    {| username := "alice"; password := "wrong" |}
  = login_for_access_token demo.lib (demo.world_at "" true)
      {| username := "alice"; password := "worse" |} /\
  (login demo.lib (demo.world_at "" true)
     {| username := "alice"; password := "wrong" |}).2
  = Raise (HTTPException 401 "Incorrect password" []).
Proof.
  destruct (token_create_hides_which_credential_failed demo.lib
              (demo.world_at "" true) {| username := "alice"; password := "wrong" |})
    as [H1 H2].
  { right. exists (demo.alice_record ""), (JStr "hash:correct").
    split; [vm_compute; reflexivity|]. split; vm_compute; reflexivity. }
  destruct (token_create_hides_which_credential_failed demo.lib
              (demo.world_at "" true) {| username := "alice"; password := "worse" |})
    as [H3 _].
  { right. exists (demo.alice_record ""), (JStr "hash:correct").
    split; [vm_compute; reflexivity|]. split; vm_compute; reflexivity. }
  split.
  - rewrite H1, H3. reflexivity.
  - rewrite H2. vm_compute. reflexivity.
Defined.

(** ** Further properties: [verify_token] *)

(** What has happened when [verify_token] has sent a request. *)
Lemma verify_token_trace_inv (L : Lib) (w : world) (td : TokenVerify) :
  (verify_token L w td).1 = [] \/
  (verify_token L w td).1 = [GET_data (tv_username td) (service_name w)] /\
  exists (p : dict) (e : Z),
    jwt.decode L (now w) (token td) (SECRET_KEY w) = Return p /\
    truthy (py_get p "sub") = true /\
    truthy (py_get p "exp") = true /\
    fromtimestamp (py_get p "exp") = Return e /\
    now w < e /\
    truthy (py_get p "ngy") = true /\
    (verify_token L w td).2
    = match fetch_user w (tv_username td) with
      | None => Raise (HTTPException 404 "User not found" [])
      | Some r =>
          if bool_decide (py_get r "jwt_token" = JStr (token td))
          then Return {| valid := true; user_id := py_get p "sub";
                         agency_id := py_get p "ngy" |}
          else Raise (HTTPException 401
                        "Invalid token: does not match stored token" [])
      end.
Proof.
  unfold verify_token.
  destruct (jwt.decode L (now w) (token td) (SECRET_KEY w)) as [p|e] eqn:Hd.
  2: { left. cbn. destruct (isinstance e cJWTError); reflexivity. }
  rewrite bind_lift_Return.
  destruct (truthy (py_get p "sub")) eqn:Ts; cbn [negb]; [|left; reflexivity].
  destruct (truthy (py_get p "exp")) eqn:Te; cbn [negb]; [|left; reflexivity].
  destruct (fromtimestamp (py_get p "exp")) as [z|e] eqn:Hz.
  2: { left. cbn. destruct (isinstance e cJWTError); reflexivity. }
  rewrite bind_lift_Return.
  destruct (Z.leb_spec z (now w)); [left; reflexivity|].
  destruct (truthy (py_get p "ngy")) eqn:Tn; cbn [negb]; [|left; reflexivity].
  right. rewrite get_user_eq, bind_traced.
  destruct (fetch_user w (tv_username td)) as [r|].
  - destruct (bool_decide (py_get r "jwt_token" = JStr (token td)));
      (split; [reflexivity|]); exists p, z; auto 10.
  - split; [reflexivity|]. exists p, z. auto 10.
Qed.

(** X9. [verify_token] only reads: whatever the request, it sends
    nothing, or the single lookup of the request's username; it never
    sends an update or a deletion. *)
Theorem verify_token_read_only (L : Lib) (w : world) (td : TokenVerify) :
  ((verify_token L w td).1 = [] \/
   (verify_token L w td).1 = [GET_data (tv_username td) (service_name w)]) /\
  (forall n u t, POST_token_update n u t ∉ (verify_token L w td).1) /\
  (forall n u t, DELETE_token_delete n u t ∉ (verify_token L w td).1).
Proof.
  destruct (verify_token_trace_inv L w td) as [H | [H _]]; rewrite H.
  - split; [auto|]. split; intros n u t Hin; apply elem_of_nil in Hin; exact Hin.
  - split; [auto|].
    split; intros n u t Hin; apply list_elem_of_singleton in Hin; discriminate.
Qed.

(** X10. [verify_token] asks the store only about tokens that have
    passed every local check: the token decodes, its subject, expiry
    and agency_id are all truthy, and the expiry lies strictly after
    the clock. *)
Theorem verify_token_store_consulted_after_local_checks (L : Lib) (w : world)
    (td : TokenVerify) :
  (verify_token L w td).1 <> [] ->
  exists (p : dict) (e : Z),
    jwt.decode L (now w) (token td) (SECRET_KEY w) = Return p /\
    truthy (py_get p "sub") = true /\
    truthy (py_get p "exp") = true /\
    fromtimestamp (py_get p "exp") = Return e /\
    now w < e /\
    truthy (py_get p "ngy") = true.
Proof.
  intros Hne.
  destruct (verify_token_trace_inv L w td)
    as [H | [_ (p & e & Hd & Ts & Te & He & Hlt & Tn & _)]]; [contradiction|].
  exists p, e. auto 6.
Qed.

Lemma verify_token_store_consulted_after_local_checks_witness :
  exists (p : dict) (e : Z),
    jwt.decode demo.lib 1000 "tok.alice.2000" "secret" = Return p /\
    truthy (py_get p "sub") = true /\
    truthy (py_get p "exp") = true /\
    fromtimestamp (py_get p "exp") = Return e /\
    1000 < e /\
    truthy (py_get p "ngy") = true.
Proof.
  apply (verify_token_store_consulted_after_local_checks demo.lib
           (demo.world_at "other" true)
           {| tv_username := "alice"; token := "tok.alice.2000" |}).
  vm_compute. discriminate.
Defined.

(** X11. [verify_token] answers [valid: true] only for a token that
    decodes, is not expired, and is exactly the token stored in the
    record of the request's username; the [user_id] and [agency_id] it
    returns are the (truthy) ["sub"] and ["ngy"] claims of that
    token. *)
Theorem verify_token_valid_only_if (L : Lib) (w : world) (td : TokenVerify)
    (tr : list call) (v : Verified) :
  verify_token L w td = (tr, Return v) ->
  exists (p r : dict) (e : Z),
    jwt.decode L (now w) (token td) (SECRET_KEY w) = Return p /\
    fromtimestamp (py_get p "exp") = Return e /\
    now w < e /\
    fetch_user w (tv_username td) = Some r /\
    py_get r "jwt_token" = JStr (token td) /\
    v = {| valid := true; user_id := py_get p "sub"; agency_id := py_get p "ngy" |} /\
    truthy (user_id v) = true /\
    truthy (agency_id v) = true /\
    tr = [GET_data (tv_username td) (service_name w)].
Proof.
  intros Hv.
  destruct (verify_token_trace_inv L w td)
    as [H | [H (p & e & Hd & Ts & _ & He & Hlt & Tn & Ho)]].
  - rewrite Hv in H. cbn in H. subst tr.
    exfalso. revert Hv. unfold verify_token.
    destruct (jwt.decode L (now w) (token td) (SECRET_KEY w)) as [p|e].
    2: { cbn. destruct (isinstance e cJWTError); discriminate. }
    rewrite bind_lift_Return.
    destruct (truthy (py_get p "sub")); cbn [negb]; [|discriminate].
    destruct (truthy (py_get p "exp")); cbn [negb]; [|discriminate].
    destruct (fromtimestamp (py_get p "exp")) as [z|e].
    2: { cbn. destruct (isinstance e cJWTError); discriminate. }
    rewrite bind_lift_Return.
    destruct (z <=? now w); [discriminate|].
    destruct (truthy (py_get p "ngy")); cbn [negb]; [|discriminate].
    rewrite get_user_eq, bind_traced.
    destruct (fetch_user w (tv_username td)) as [r|]; [|discriminate].
    destruct (bool_decide (py_get r "jwt_token" = JStr (token td))); discriminate.
  - rewrite Hv in H, Ho. cbn in H, Ho.
    destruct (fetch_user w (tv_username td)) as [r|]; [|discriminate].
    destruct (bool_decide (py_get r "jwt_token" = JStr (token td))) eqn:Hb;
      [|discriminate].
    apply bool_decide_eq_true in Hb. injection Ho as ->.
    exists p, r, e. cbn. auto 12.
Qed.

Lemma verify_token_valid_only_if_witness :
  exists (r : dict),
    fetch_user (demo.world_at "tok.alice.2000" true) "alice" = Some r /\
    py_get r "jwt_token" = JStr "tok.alice.2000".
Proof.
  destruct (verify_token_valid_only_if demo.lib
              (demo.world_at "tok.alice.2000" true)
              {| tv_username := "alice"; token := "tok.alice.2000" |}
              [GET_data "alice" "auth"]
              {| valid := true; user_id := JStr "alice";
                 agency_id := JStr "agency-1" |})
    as (p & r & e & _ & _ & _ & Hf & Hr & _).
  - vm_compute. reflexivity.
  - exists r. auto.
Defined.

Lemma login_incomplete_record_witness :
  login demo.lib (demo2.world_with demo2.partial_record)
    {| username := "alice"; password := "correct" |}
  = ([GET_data "alice" "auth"], Raise (KeyError "agency_id")).
Proof.
  destruct (login_incomplete_record demo.lib
              (demo2.world_with demo2.partial_record)
              {| username := "alice"; password := "correct" |}
              demo2.partial_record) as [H1 H2].
  - vm_compute. reflexivity.
  - right. right. vm_compute. reflexivity.
  - vm_compute. reflexivity.
Defined.

(** X12. An agency_id claim that is present but falsy (0, the empty
    string, [false], [null], an empty list or object) is treated as
    missing: the token is rejected with 400 before the store is asked. *)
Theorem verify_token_falsy_agency_rejected (L : Lib) (w : world)
    (td : TokenVerify) (p : dict) (s : string) (a : json) (e : Z) :
  0 <= now w ->
  jwt.decode L (now w) (token td) (SECRET_KEY w) = Return p ->
  p !! "sub" = Some (JStr s) -> s <> "" ->
  p !! "exp" = Some (JInt e) -> now w < e <= MAX_TIMESTAMP ->
  p !! "ngy" = Some a -> truthy a = false ->
  verify_token L w td
  = ([], Raise (HTTPException 400 "Invalid token: missing expiration" [])).
Proof.
  intros Hnow Hd Hs Hne Hx [He1 He2] Hg Ha.
  unfold verify_token. rewrite Hd, bind_lift_Return.
  rewrite (py_get_Some _ _ _ Hs), (py_get_Some _ _ _ Hx), (py_get_Some _ _ _ Hg),
    (truthy_JStr s Hne), Ha.
  rewrite (truthy_JInt e) by lia. cbn [negb].
  rewrite fromtimestamp_in_range by (unfold MIN_TIMESTAMP; lia).
  rewrite bind_lift_Return.
  destruct (Z.leb_spec e (now w)); [lia|]. reflexivity.
Qed.

Lemma verify_token_falsy_agency_rejected_witness :
  verify_token demo2.lib (demo2.world_with demo2.numeric_record)
    {| tv_username := "alice"; token := "tok.agency0" |}
  = ([], Raise (HTTPException 400 "Invalid token: missing expiration" [])).
Proof.
  apply (verify_token_falsy_agency_rejected demo2.lib
           (demo2.world_with demo2.numeric_record)
           {| tv_username := "alice"; token := "tok.agency0" |}
           {[ "sub" := JStr "alice"; "ngy" := JInt 0; "exp" := JInt 2000 ]}
           "alice" (JInt 0) 2000).
  - vm_compute. discriminate.
  - vm_compute. reflexivity.
  - vm_compute. reflexivity.
  - discriminate.
  - vm_compute. reflexivity.
  - split; [vm_compute; reflexivity|vm_compute; discriminate].
  - vm_compute. reflexivity.
  - reflexivity.
Defined.

(** X13. An expiry claim that is a numeric string passes the library's
    check ([int("...")] succeeds) but not [datetime.fromtimestamp]:
    [verify_token] ends with an uncaught [TypeError], not with a
    rejection, and the store is not asked. *)
Theorem verify_token_string_expiry_TypeError (L : Lib) (w : world)
    (td : TokenVerify) (p : dict) (s x : string) :
  jwt.decode L (now w) (token td) (SECRET_KEY w) = Return p ->
  p !! "sub" = Some (JStr s) -> s <> "" ->
  p !! "exp" = Some (JStr x) -> x <> "" ->
  verify_token L w td = ([], Raise TypeError).
Proof.
  intros Hd Hs Hne Hx Hxe.
  unfold verify_token. rewrite Hd, bind_lift_Return.
  rewrite (py_get_Some _ _ _ Hs), (py_get_Some _ _ _ Hx),
    (truthy_JStr s Hne), (truthy_JStr x Hxe).
  reflexivity.
Qed.

Lemma verify_token_string_expiry_TypeError_witness :
  verify_token demo2.lib (demo2.world_with demo2.numeric_record)
    {| tv_username := "alice"; token := "tok.strexp" |}
  = ([], Raise TypeError).
Proof.
  apply (verify_token_string_expiry_TypeError demo2.lib
           (demo2.world_with demo2.numeric_record)
           {| tv_username := "alice"; token := "tok.strexp" |}
           {[ "sub" := JStr "alice"; "ngy" := JStr "agency-1"; "exp" := JStr "2000" ]}
           "alice" "2000").
  - vm_compute. reflexivity.
  - vm_compute. reflexivity.
  - discriminate.
  - vm_compute. reflexivity.
  - discriminate.
Defined.

(** ** Further properties: [refresh_token] *)

(** What has happened when [refresh_token] returns. *)
Lemma refresh_token_Return_inv (L : Lib) (w : world) (td : TokenRefresh)
    (tr : list call) (body : Token) :
  refresh_token L w td = (tr, Return body) ->
  exists (p : dict) (s : string),
    jwt.decode L (now w) (refresh_token_field td) (SECRET_KEY w) = Return p /\
    p !! "sub" = Some (JStr s) /\
    jws_sign L (refreshed_claims w (JStr s)) (SECRET_KEY w)
    = Some (access_token body) /\
    access_token body <> "" /\
    token_type body = "bearer" /\
    remote_update w (tr_username td) (access_token body) = SendResponse true /\
    tr = [POST_token_update (service_name w) (tr_username td) (access_token body)].
Proof.
  destruct (jwt.decode L (now w) (refresh_token_field td) (SECRET_KEY w))
    as [p|e] eqn:Hd.
  2: { unfold refresh_token, refresh_token_try. rewrite Hd. discriminate. }
  apply decode_Return in Hd as Hd'. destruct Hd' as [_ Hval].
  destruct (validate_claims_sub _ _ _ Hval) as [Hs | [s Hs]].
  { unfold refresh_token, refresh_token_try.
    rewrite Hd, bind_lift_Return, (py_get_None _ _ Hs). discriminate. }
  rewrite (refresh_token_decoded L w td p (JStr s) Hd Hs).
  destruct (jws_sign L (refreshed_claims w (JStr s)) (SECRET_KEY w)) as [t|]
    eqn:Hsign; [|discriminate].
  destruct (String.eqb_spec t ""); [discriminate|].
  unfold save_token.
  destruct (remote_update w (tr_username td) t) as [|[]] eqn:Hu; try discriminate.
  intros [= <- <-]. exists p, s. cbn.
  split; [reflexivity|]. split; [exact Hs|]. split; [exact Hsign|]. auto 10.
Qed.

(** X14. [refresh_token] never ends with an [HTTPException]: it either
    returns a bearer token after a single update sent to the store, or
    ends with the [AttributeError] raised by its [except] clause, and
    that for every failure alike (undecodable token, missing subject,
    failed signature, refused write). *)
Theorem refresh_token_returns_or_AttributeError (L : Lib) (w : world)
    (td : TokenRefresh) :
  (exists t, refresh_token L w td
             = ([POST_token_update (service_name w) (tr_username td) t],
                Return {| access_token := t; token_type := "bearer" |})) \/
  (refresh_token L w td).2 = Raise (AttributeError "PyJWTError").
Proof.
  destruct (jwt.decode L (now w) (refresh_token_field td) (SECRET_KEY w))
    as [p|e] eqn:Hd.
  2: { right. unfold refresh_token, refresh_token_try. rewrite Hd. reflexivity. }
  destruct (p !! "sub") as [v|] eqn:Hs.
  2: { right. unfold refresh_token, refresh_token_try.
       rewrite Hd, bind_lift_Return, (py_get_None _ _ Hs). reflexivity. }
  rewrite (refresh_token_decoded L w td p v Hd Hs).
  destruct (jws_sign L (refreshed_claims w v) (SECRET_KEY w)) as [t|];
    [|right; reflexivity].
  destruct (String.eqb t ""); [right; reflexivity|].
  destruct (save_token w (tr_username td) t); [left; exists t|right]; reflexivity.
Qed.

(** ** Further properties: how the operations compose *)

Lemma refreshed_claims_lookup (w : world) (v : json) :
  refreshed_claims w v !! "sub" = Some v /\
  refreshed_claims w v !! "exp" = Some (JInt (now w + 604800)) /\
  forall k, k <> "sub" -> k <> "exp" -> refreshed_claims w v !! k = None.
Proof.
  unfold refreshed_claims. split; [|split].
  - rewrite lookup_insert_ne by done. apply lookup_singleton_eq.
  - apply lookup_insert_eq.
  - intros k H1 H2. rewrite lookup_insert_ne by done.
    apply lookup_singleton_ne. done.
Qed.

(** Claims that carry a string subject, an integer expiry not yet
    passed, and none of the other registered claims pass the library's
    validation. *)
Lemma validate_claims_plain (L : Lib) (now : Z) (c : dict) (s : string) (e : Z) :
  c !! "sub" = Some (JStr s) ->
  c !! "exp" = Some (JInt e) ->
  now <= e ->
  c !! "iat" = None -> c !! "nbf" = None -> c !! "aud" = None ->
  c !! "jti" = None -> c !! "at_hash" = None ->
  jwt._validate_claims L now c = Return tt.
Proof.
  intros Hs He Hle H1 H2 H3 H4 H5.
  unfold jwt._validate_claims, jwt._validate_iat, jwt._validate_nbf,
    jwt._validate_exp, jwt._validate_aud, jwt._validate_sub, jwt._validate_jti,
    jwt._validate_at_hash.
  rewrite H1, H2, H3, H4, H5, Hs, He. cbn.
  destruct (Z.ltb_spec e now); [lia|reflexivity].
Qed.

(** [verify_token] on a token that passes every check. *)
Lemma verify_token_accepts (L : Lib) (w : world) (td : TokenVerify)
    (p record : dict) (s : string) (a : json) (e : Z) :
  0 <= now w ->
  jwt.decode L (now w) (token td) (SECRET_KEY w) = Return p ->
  p !! "sub" = Some (JStr s) -> s <> "" ->
  p !! "exp" = Some (JInt e) -> now w < e <= MAX_TIMESTAMP ->
  p !! "ngy" = Some a -> truthy a = true ->
  remote_get w (tv_username td) = GetResponse true (BodyJson (Some record)) ->
  record !! "jwt_token" = Some (JStr (token td)) ->
  verify_token L w td
  = ([GET_data (tv_username td) (service_name w)],
     Return {| valid := true; user_id := JStr s; agency_id := a |}).
Proof.
  intros Hnow Hdec Hsub Hs Hexp [He1 He2] Hngy Ha Hget Hrec.
  unfold verify_token. rewrite Hdec, bind_lift_Return.
  rewrite (py_get_Some _ _ _ Hsub), (py_get_Some _ _ _ Hexp), (py_get_Some _ _ _ Hngy).
  rewrite (truthy_JStr s Hs), Ha, (truthy_JInt e) by lia. cbn [negb].
  rewrite fromtimestamp_in_range by (unfold MIN_TIMESTAMP; lia).
  rewrite bind_lift_Return.
  destruct (Z.leb_spec e (now w)); [lia|].
  rewrite get_user_eq, bind_traced.
  unfold fetch_user. rewrite Hget.
  rewrite bool_decide_eq_false_2.
  2: { intros ->. rewrite lookup_empty in Hrec. discriminate. }
  rewrite (py_get_Some _ _ _ Hrec).
  rewrite bool_decide_eq_true_2 by reflexivity.
  reflexivity.
Qed.

(** X15. Login, then Verify.  A token returned by [login] for a record
    whose ["login"] is a non-empty string and whose ["agency_id"] is
    truthy is accepted by [verify_token] at any later time within the
    seven days, as long as the key is the same and the store holds that
    token for the user; the answer carries the record's login and
    agency_id.  (The library's verification is assumed to accept what
    its signing produced.) *)
Theorem login_then_verify (L : Lib) (w w' : world) (c : User) (tr : list call)
    (body : Token) (user record : dict) (s : string) (a : json) :
  sign_verify_roundtrip L ->
  login L w c = (tr, Return body) ->
  fetch_user w (username c) = Some user ->
  user !! "login" = Some (JStr s) -> s <> "" ->
  user !! "agency_id" = Some a -> truthy a = true ->
  SECRET_KEY w' = SECRET_KEY w ->
  0 <= now w' ->
  now w' < now w + 604800 <= MAX_TIMESTAMP ->
  remote_get w' (username c) = GetResponse true (BodyJson (Some record)) ->
  record !! "jwt_token" = Some (JStr (access_token body)) ->
  verify_token L w' {| tv_username := username c; token := access_token body |}
  = ([GET_data (username c) (service_name w')],
     Return {| valid := true; user_id := JStr s; agency_id := a |}).
Proof.
  intros Hrt Hlogin Hf Hl Hs Ha Hta Hkey Hnow Hwin Hget Hrec.
  apply login_Return_inv in Hlogin
    as (user' & hashed & sub & ngy & Hf' & _ & _ & Hl' & Ha' & Hsign & _).
  rewrite Hf in Hf'. injection Hf' as <-.
  rewrite Hl in Hl'. injection Hl' as <-.
  rewrite Ha in Ha'. injection Ha' as <-.
  apply Hrt in Hsign.
  destruct (login_claims_lookup (JStr s) a (now w + 604800))
    as (Cs & Cn & Ce & Co).
  apply (verify_token_accepts L w'
           {| tv_username := username c; token := access_token body |}
           (<["exp" := JInt (now w + 604800)]> {[ "sub" := JStr s; "ngy" := a ]})
           record s a (now w + 604800)); cbn [tv_username token];
    try assumption.
  apply decode_Return. rewrite Hkey. split; [exact Hsign|].
  apply (validate_claims_plain L (now w') _ s (now w + 604800));
    try assumption; try lia; apply Co; discriminate.
Qed.

Lemma login_then_verify_witness :
  verify_token demo.lib (demo.world_at "tok.login" true)
    {| tv_username := "alice"; token := "tok.login" |}
  = ([GET_data "alice" "auth"],
     Return {| valid := true; user_id := JStr "alice";
               agency_id := JStr "agency-1" |}).
Proof.
  apply (login_then_verify demo.lib (demo.world_at "" true)
           (demo.world_at "tok.login" true)
           {| username := "alice"; password := "correct" |}
           [GET_data "alice" "auth"; POST_token_update "auth" "alice" "tok.login"]
           {| access_token := "tok.login"; token_type := "bearer" |}
           (demo.alice_record "") (demo.alice_record "tok.login")
           "alice" (JStr "agency-1")).
  - exact demo_sign_verify_roundtrip.
  - vm_compute. reflexivity.
  - vm_compute. reflexivity.
  - vm_compute. reflexivity.
  - discriminate.
  - vm_compute. reflexivity.
  - reflexivity.
  - reflexivity.
  - vm_compute. discriminate.
  - split; [vm_compute; reflexivity|vm_compute; discriminate].
  - reflexivity.
  - vm_compute. reflexivity.
Defined.

(** What [verify_token] has checked of a token it accepts. *)
Lemma verify_token_Return_ngy (L : Lib) (w : world) (td : TokenVerify)
    (tr : list call) (v : Verified) :
  verify_token L w td = (tr, Return v) ->
  exists p,
    jwt.decode L (now w) (token td) (SECRET_KEY w) = Return p /\
    truthy (py_get p "ngy") = true.
Proof.
  unfold verify_token.
  destruct (jwt.decode L (now w) (token td) (SECRET_KEY w)) as [p|e].
  2: { cbn. destruct (isinstance e cJWTError); discriminate. }
  rewrite bind_lift_Return.
  destruct (truthy (py_get p "sub")); cbn [negb]; [|discriminate].
  destruct (truthy (py_get p "exp")); cbn [negb]; [|discriminate].
  destruct (fromtimestamp (py_get p "exp")) as [z|e].
  2: { cbn. destruct (isinstance e cJWTError); discriminate. }
  rewrite bind_lift_Return.
  destruct (z <=? now w); [discriminate|].
  destruct (truthy (py_get p "ngy")) eqn:Tn; cbn [negb]; [|discriminate].
  intros _. exists p. split; [reflexivity|exact Tn].
Qed.

(** X16. Refresh, then Verify.  A token returned by [refresh_token] is
    never accepted by [verify_token], at any time and whatever the
    store holds, because it carries no agency_id; within its seven days
    it is rejected with 400 before the store is asked, for the missing
    agency_id (or, for an empty subject, for the subject).  (Same
    assumption on the library.) *)
Theorem refreshed_token_fails_verification (L : Lib) (w w' : world)
    (td : TokenRefresh) (tr : list call) (body : Token) (u : string) :
  sign_verify_roundtrip L ->
  refresh_token L w td = (tr, Return body) ->
  SECRET_KEY w' = SECRET_KEY w ->
  (forall tr' v,
      verify_token L w' {| tv_username := u; token := access_token body |}
      <> (tr', Return v)) /\
  (0 <= now w' ->
   now w' < now w + 604800 <= MAX_TIMESTAMP ->
   exists d,
     verify_token L w' {| tv_username := u; token := access_token body |}
     = ([], Raise (HTTPException 400 d [])) /\
     (d = "Invalid token: missing username" \/
      d = "Invalid token: missing expiration")).
Proof.
  intros Hrt Hr Hkey.
  apply refresh_token_Return_inv in Hr as (p & s & _ & _ & Hsign & _).
  apply Hrt in Hsign.
  destruct (refreshed_claims_lookup w (JStr s)) as (Cs & Ce & Co).
  split.
  { intros tr' v Hv.
    apply verify_token_Return_ngy in Hv as (p' & Hd & Tn).
    cbn [token tv_username] in Hd.
    apply decode_Return in Hd as [Hver _].
    rewrite Hkey, Hsign in Hver. injection Hver as <-.
    rewrite (py_get_None (refreshed_claims w (JStr s)) "ngy") in Tn
      by (apply Co; discriminate).
    discriminate. }
  intros Hnow Hwin.
  assert (Hd : jwt.decode L (now w') (access_token body) (SECRET_KEY w')
               = Return (refreshed_claims w (JStr s))).
  { apply decode_Return. rewrite Hkey. split; [exact Hsign|].
    apply (validate_claims_plain L (now w') _ s (now w + 604800));
      try assumption; try lia; apply Co; discriminate. }
  unfold verify_token. cbn [token tv_username]. rewrite Hd, bind_lift_Return.
  rewrite (py_get_Some _ _ _ Cs).
  destruct (String.eqb_spec s "") as [-> | Hs].
  { exists "Invalid token: missing username". split; [reflexivity|auto]. }
  exists "Invalid token: missing expiration". split; [|auto].
  rewrite (truthy_JStr s Hs), (py_get_Some _ _ _ Ce). cbn [negb].
  rewrite (truthy_JInt (now w + 604800)) by lia. cbn [negb].
  rewrite fromtimestamp_in_range by (unfold MIN_TIMESTAMP; lia).
  rewrite bind_lift_Return.
  destruct (Z.leb_spec (now w + 604800) (now w')); [lia|].
  rewrite (py_get_None (refreshed_claims w (JStr s)) "ngy")
    by (apply Co; discriminate).
  reflexivity.
Qed.

Lemma refreshed_token_fails_verification_witness :
  (forall tr' v,
      verify_token demo.lib (demo.world_at "tok.refreshed" true)
        {| tv_username := "alice"; token := "tok.refreshed" |}
      <> (tr', Return v)) /\
  exists d,
    verify_token demo.lib (demo.world_at "tok.refreshed" true)
      {| tv_username := "alice"; token := "tok.refreshed" |}
    = ([], Raise (HTTPException 400 d [])) /\
    (d = "Invalid token: missing username" \/
     d = "Invalid token: missing expiration").
Proof.
  destruct (refreshed_token_fails_verification demo.lib
              (demo.world_at "tok.alice.2000" true)
              (demo.world_at "tok.refreshed" true)
              {| tr_username := "alice"; refresh_token_field := "tok.alice.2000" |}
              [POST_token_update "auth" "alice" "tok.refreshed"]
              {| access_token := "tok.refreshed"; token_type := "bearer" |}
              "alice") as [Hnever Hwindow].
  - exact demo_sign_verify_roundtrip.
  - vm_compute. reflexivity.
  - reflexivity.
  - split; [exact Hnever|].
    apply Hwindow.
    + vm_compute. discriminate.
    + split; [vm_compute; reflexivity|vm_compute; discriminate].
Defined.

(** X17. Login with a record whose ["login"] is not a string (a number,
    say): [login] returns a token all the same, but [verify_token]
    rejects that token with 400 "Invalid token format" at any time and
    whatever the store holds, because the library refuses a subject
    that is not a string.  (Same assumption on the library.) *)
Theorem login_with_non_string_login_is_unverifiable (L : Lib) (w w' : world)
    (c : User) (tr : list call) (body : Token) (user : dict) (lg : json)
    (u : string) :
  sign_verify_roundtrip L ->
  login L w c = (tr, Return body) ->
  fetch_user w (username c) = Some user ->
  user !! "login" = Some lg ->
  (forall s, lg <> JStr s) ->
  SECRET_KEY w' = SECRET_KEY w ->
  verify_token L w' {| tv_username := u; token := access_token body |}
  = ([], Raise (HTTPException 400 "Invalid token format" [])).
Proof.
  intros Hrt Hlogin Hf Hl Hns Hkey.
  apply login_Return_inv in Hlogin
    as (user' & hashed & sub & ngy & Hf' & _ & _ & Hl' & _ & Hsign & _).
  rewrite Hf in Hf'. injection Hf' as <-.
  rewrite Hl in Hl'. injection Hl' as <-.
  apply Hrt in Hsign.
  destruct (login_claims_lookup lg ngy (now w + 604800)) as (Cs & Cn & Ce & Co).
  unfold verify_token, jwt.decode. cbn [token tv_username].
  rewrite Hkey, Hsign.
  unfold jwt._validate_claims, jwt._validate_iat, jwt._validate_nbf,
    jwt._validate_exp, jwt._validate_aud, jwt._validate_sub.
  rewrite !(Co "iat"), !(Co "nbf"), !(Co "aud") by discriminate.
  rewrite Ce, Cs. cbn [mbind outcome_bind jwt.int_claim jwt.py_int].
  destruct (now w + 604800 <? now w'); [reflexivity|].
  cbn [mbind outcome_bind].
  destruct lg as [|b|z|s|l|o]; try reflexivity.
  exfalso. apply (Hns s). reflexivity.
Qed.

Lemma demo2_sign_verify_roundtrip : sign_verify_roundtrip demo2.lib.
Proof.
  intros claims key t. cbn. unfold demo2.sign, demo2.verify.
  destruct (String.eqb key "secret"); [|discriminate].
  destruct (List.find _ demo2.table) as [[t' c]|] eqn:Hf; [|discriminate].
  cbn. intros [= ->].
  apply find_some in Hf as [Hin Heq]. apply bool_decide_eq_true in Heq.
  cbn in Heq. subst c.
  unfold demo2.table in Hin. cbn [In] in Hin.
  repeat (destruct Hin as [[= <- <-] | Hin]; [vm_compute; reflexivity|]).
  destruct Hin.
Qed.

Lemma login_with_non_string_login_is_unverifiable_witness :
  (login demo2.lib (demo2.world_with demo2.numeric_record)
     {| username := "alice"; password := "correct" |}).2
  = Return {| access_token := "tok.numeric"; token_type := "bearer" |} /\
  verify_token demo2.lib (demo2.world_with demo2.numeric_record)
    {| tv_username := "alice"; token := "tok.numeric" |}
  = ([], Raise (HTTPException 400 "Invalid token format" [])).
Proof.
  split; [vm_compute; reflexivity|].
  apply (login_with_non_string_login_is_unverifiable demo2.lib
           (demo2.world_with demo2.numeric_record)
           (demo2.world_with demo2.numeric_record)
           {| username := "alice"; password := "correct" |}
           [GET_data "alice" "auth"; POST_token_update "auth" "alice" "tok.numeric"]
           {| access_token := "tok.numeric"; token_type := "bearer" |}
           demo2.numeric_record (JInt 7) "alice").
  - exact demo2_sign_verify_roundtrip.
  - vm_compute. reflexivity.
  - vm_compute. reflexivity.
  - vm_compute. reflexivity.
  - discriminate.
  - reflexivity.
Defined.

(** ** Further properties: [logout] *)

(** X18. [logout] on a token that passes every check of
    [verify_token], with a store that answers the deletion with an ok
    status: one lookup, then one deletion naming the request's username
    and the presented token, then the success message. *)
Theorem logout_succeeds (L : Lib) (w : world) (td : TokenVerify)
    (p record : dict) (s : string) (a : json) (e : Z) :
  0 <= now w ->
  jwt.decode L (now w) (token td) (SECRET_KEY w) = Return p ->
  p !! "sub" = Some (JStr s) -> s <> "" ->
  p !! "exp" = Some (JInt e) -> now w < e <= MAX_TIMESTAMP ->
  p !! "ngy" = Some a -> truthy a = true ->
  remote_get w (tv_username td) = GetResponse true (BodyJson (Some record)) ->
  record !! "jwt_token" = Some (JStr (token td)) ->
  remote_delete w (tv_username td) (token td) = SendResponse true ->
  logout L w td
  = ([GET_data (tv_username td) (service_name w);
      DELETE_token_delete (service_name w) (tv_username td) (token td)],
     Return {| message := "Successfully logged out" |}).
Proof.
  intros Hnow Hd Hs Hne Hx He Hg Ha Hget Hrec Hdel.
  unfold logout.
  rewrite (verify_token_accepts L w td p record s a e) by assumption.
  rewrite bind_traced. cbn [valid negb].
  unfold requests_delete_token. rewrite Hdel. reflexivity.
Qed.

Lemma logout_succeeds_witness :
  logout demo.lib (demo.world_at "tok.alice.2000" true)
    {| tv_username := "alice"; token := "tok.alice.2000" |}
  = ([GET_data "alice" "auth"; DELETE_token_delete "auth" "alice" "tok.alice.2000"],
     Return {| message := "Successfully logged out" |}).
Proof.
  apply (logout_succeeds demo.lib (demo.world_at "tok.alice.2000" true)
           {| tv_username := "alice"; token := "tok.alice.2000" |}
           (demo.alice_claims 2000) (demo.alice_record "tok.alice.2000")
           "alice" (JStr "agency-1") 2000).
  - vm_compute. discriminate.
  - vm_compute. reflexivity.
  - vm_compute. reflexivity.
  - discriminate.
  - vm_compute. reflexivity.
  - split; [vm_compute; reflexivity|vm_compute; discriminate].
  - vm_compute. reflexivity.
  - reflexivity.
  - reflexivity.
  - vm_compute. reflexivity.
  - reflexivity.
Defined.

(** X19. [logout] sends a deletion only for a request that
    [verify_token] has accepted, and the deletion names the request's
    own username and token. *)
Theorem logout_deletes_only_verified_tokens (L : Lib) (w : world)
    (td : TokenVerify) (n u t : string) :
  DELETE_token_delete n u t ∈ (logout L w td).1 ->
  u = tv_username td /\ t = token td /\
  exists v, verify_token L w td
            = ([GET_data (tv_username td) (service_name w)], Return v).
Proof.
  unfold logout.
  destruct (verify_token_trace_inv L w td) as [Htr | [Htr _]];
    destruct (verify_token L w td) as [tr [v|e]] eqn:Hv; cbn in Htr; subst tr.
  - apply verify_token_Return_valid in Hv as Hvalid.
    exfalso. revert Hv. clear. unfold verify_token.
    destruct (jwt.decode L (now w) (token td) (SECRET_KEY w)) as [p|e].
    2: { cbn. destruct (isinstance e cJWTError); discriminate. }
    rewrite bind_lift_Return.
    destruct (truthy (py_get p "sub")); cbn [negb]; [|discriminate].
    destruct (truthy (py_get p "exp")); cbn [negb]; [|discriminate].
    destruct (fromtimestamp (py_get p "exp")) as [z|e].
    2: { cbn. destruct (isinstance e cJWTError); discriminate. }
    rewrite bind_lift_Return.
    destruct (z <=? now w); [discriminate|].
    destruct (truthy (py_get p "ngy")); cbn [negb]; [|discriminate].
    rewrite get_user_eq, bind_traced.
    destruct (fetch_user w (tv_username td)) as [r|]; [|discriminate].
    destruct (bool_decide (py_get r "jwt_token" = JStr (token td))); discriminate.
  - rewrite bind_traced_Raise. unfold try_except.
    destruct (isinstance e cHTTPException); cbn; intros H;
      apply elem_of_nil in H; destruct H.
  - apply verify_token_Return_valid in Hv as Hvalid.
    rewrite bind_traced, Hvalid. cbn [negb]. unfold requests_delete_token.
    intros H.
    assert (Hin : DELETE_token_delete n u t
                  ∈ [GET_data (tv_username td) (service_name w);
                     DELETE_token_delete (service_name w) (tv_username td) (token td)]).
    { revert H.
      destruct (remote_delete w (tv_username td) (token td)) as [|[]];
        cbn; rewrite ?isinstance_HTTPException; cbn; rewrite ?app_nil_r;
        exact (fun H => H). }
    apply elem_of_cons in Hin as [Hin|Hin]; [discriminate|].
    apply list_elem_of_singleton in Hin. injection Hin as -> -> ->.
    eauto.
  - rewrite bind_traced_Raise. unfold try_except.
    destruct (isinstance e cHTTPException); cbn; intros H;
      apply elem_of_cons in H as [H|H]; try discriminate;
      apply elem_of_nil in H; destruct H.
Qed.

Lemma logout_deletes_only_verified_tokens_witness :
  exists v,
    verify_token demo.lib (demo.world_at "tok.alice.2000" true)
      {| tv_username := "alice"; token := "tok.alice.2000" |}
    = ([GET_data "alice" "auth"], Return v).
Proof.
  destruct (logout_deletes_only_verified_tokens demo.lib
              (demo.world_at "tok.alice.2000" true)
              {| tv_username := "alice"; token := "tok.alice.2000" |}
              "auth" "alice" "tok.alice.2000") as (_ & _ & H).
  - vm_compute. apply elem_of_cons. right. apply list_elem_of_singleton.
    reflexivity.
  - exact H.
Defined.

(** ** Further properties: the logger *)

Lemma nonempty_true (s : string) : logger.nonempty s = true <-> s <> "".
Proof.
  unfold logger.nonempty. destruct (String.eqb_spec s ""); split; intros H;
    try reflexivity; try discriminate; try assumption; contradiction.
Qed.

Lemma send_telegram_alert_configured (self : logger.ColorfulLogger)
    (E : logger.env) (message : string) :
  logger.tg_api_alert self <> "" ->
  logger.tg_chat_id_alert self <> "" ->
  logger.posted (logger._send_telegram_alert self E message) = [message].
Proof.
  intros H1 H2. unfold logger._send_telegram_alert.
  apply nonempty_true in H1, H2. rewrite H1, H2. cbn [negb orb].
  destruct (logger.telegram E _ _ message) as [|[]]; reflexivity.
Qed.

Lemma send_telegram_alert_post_inv (self : logger.ColorfulLogger)
    (E : logger.env) (message url chat text : string) :
  logger.TelegramPost url chat text ∈ logger._send_telegram_alert self E message ->
  logger.tg_api_alert self <> "" /\
  logger.tg_chat_id_alert self <> "" /\
  url = "https://api.telegram.org/bot" +:+ logger.tg_api_alert self +:+ "/sendMessage" /\
  chat = logger.tg_chat_id_alert self /\
  text = message.
Proof.
  unfold logger._send_telegram_alert.
  destruct (logger.nonempty (logger.tg_api_alert self)) eqn:H1; cbn [negb orb].
  2: { intros H. apply elem_of_nil in H. destruct H. }
  destruct (logger.nonempty (logger.tg_chat_id_alert self)) eqn:H2; cbn [negb].
  2: { intros H. apply elem_of_nil in H. destruct H. }
  apply nonempty_true in H1, H2.
  intros H. apply elem_of_cons in H as [H | H].
  - injection H as -> -> ->. auto.
  - exfalso. revert H.
    destruct (logger.telegram E _ _ message) as [|[]]; cbn; intros H;
      repeat (apply elem_of_cons in H as [H|H]; [discriminate H|]);
      apply elem_of_nil in H; exact H.
Qed.

(** X20. [log] posts to Telegram only at the levels ERROR and CRITICAL,
    and only when both the bot token and the chat id are set; the post
    goes to that bot's [sendMessage] address and to that chat. *)
Theorem log_posts_only_errors_when_configured (self : logger.ColorfulLogger)
    (E : logger.env) (caller : logger.frame) (level message : string)
    (args : list json) (url chat text : string) :
  logger.TelegramPost url chat text ∈ (logger.log self E caller level message args).1 ->
  (level = "ERROR" \/ level = "CRITICAL") /\
  logger.tg_api_alert self <> "" /\
  logger.tg_chat_id_alert self <> "" /\
  url = "https://api.telegram.org/bot" +:+ logger.tg_api_alert self +:+ "/sendMessage" /\
  chat = logger.tg_chat_id_alert self.
Proof.
  unfold logger.log, logger.color_map.
  destruct (logger.format_message E message args) as [m|e].
  2: { repeat (destruct (String.eqb level _)); cbn; intros H;
       apply elem_of_nil in H; destruct H. }
  destruct (String.eqb_spec level "INFO").
  { cbn. intros H. repeat (apply elem_of_cons in H as [H|H]; [discriminate H|]).
    apply elem_of_nil in H; destruct H. }
  destruct (String.eqb_spec level "DEBUG").
  { cbn. intros H. repeat (apply elem_of_cons in H as [H|H]; [discriminate H|]).
    apply elem_of_nil in H; destruct H. }
  destruct (String.eqb_spec level "WARNING").
  { cbn. intros H. repeat (apply elem_of_cons in H as [H|H]; [discriminate H|]).
    apply elem_of_nil in H; destruct H. }
  destruct (String.eqb_spec level "ERROR").
  { cbn [fst]. intros H.
    apply elem_of_cons in H as [H|H]; [discriminate H|].
    apply elem_of_cons in H as [H|H]; [discriminate H|].
    destruct (logger.nonempty (logger.tg_api_alert self));
      [|apply elem_of_nil in H; destruct H].
    apply send_telegram_alert_post_inv in H as (H1 & H2 & H3 & H4 & _). auto. }
  destruct (String.eqb_spec level "CRITICAL").
  { cbn [fst]. intros H.
    apply elem_of_cons in H as [H|H]; [discriminate H|].
    apply elem_of_cons in H as [H|H]; [discriminate H|].
    destruct (logger.nonempty (logger.tg_api_alert self));
      [|apply elem_of_nil in H; destruct H].
    apply send_telegram_alert_post_inv in H as (H1 & H2 & H3 & H4 & _). auto. }
  cbn. intros H. apply elem_of_nil in H; destruct H.
Qed.

Lemma log_posts_only_errors_when_configured_witness :
  logger.tg_api_alert logger.demo_logger <> "" /\
  logger.tg_chat_id_alert logger.demo_logger <> "".
Proof.
  destruct (log_posts_only_errors_when_configured logger.demo_logger
              logger.demo_env (logger.own_frame logger.demo_env "error" 142)
              "ERROR" "disk full" []
              "https://api.telegram.org/botbot-token/sendMessage" "42"
              "🚨 Ошибка в сервисе auth: disk full")
    as (_ & H1 & H2 & _).
  - vm_compute. apply elem_of_cons. right. apply elem_of_cons. right.
    apply elem_of_cons. left. reflexivity.
  - auto.
Defined.

(** X21. [log] raises only before it has done anything: when it ends
    with an exception (an unsupported level, a message that cannot be
    formatted), nothing has been printed, recorded or posted. *)
Theorem log_failure_has_no_effect (self : logger.ColorfulLogger) (E : logger.env)
    (caller : logger.frame) (level message : string) (args : list json)
    (e : exn) :
  (logger.log self E caller level message args).2 = Raise e ->
  (logger.log self E caller level message args).1 = [] /\
  (logger.color_map level = None /\ e = ValueError \/
   logger.format_message E message args = Raise e).
Proof.
  unfold logger.log.
  destruct (logger.color_map level) as [color|]; cbn.
  - destruct (logger.format_message E message args) as [m|e']; cbn.
    + discriminate.
    + intros [= ->]. auto.
  - intros [= <-]. auto.
Qed.

Lemma log_failure_has_no_effect_witness :
  (logger.log logger.demo_logger logger.demo_env
     (logger.own_frame logger.demo_env "main" 1) "TRACE" "x" []).1 = [].
Proof.
  apply (log_failure_has_no_effect logger.demo_logger logger.demo_env
           (logger.own_frame logger.demo_env "main" 1) "TRACE" "x" [] ValueError).
  reflexivity.
Defined.

(** X22. With both Telegram settings in place, [error] posts one alert
    and [exception] posts two for one call: the alert of the ERROR
    record it writes through [self.error], then its own, both carrying
    the message followed by the traceback. *)
Theorem exception_alerts_twice (self : logger.ColorfulLogger) (E : logger.env)
    (message : string) (args : list json) (m : string) :
  logger.tg_api_alert self <> "" ->
  logger.tg_chat_id_alert self <> "" ->
  logger.format_message E message args = Return m ->
  let full := m +:+ logger.newline +:+ logger.format_exc E in
  logger.posted (logger.error self E message args).1
  = ["🚨 Ошибка в сервисе " +:+ logger.service_name self +:+ ": " +:+ m] /\
  logger.posted (logger.exception self E message args).1
  = ["🚨 Ошибка в сервисе " +:+ logger.service_name self +:+ ": " +:+ full;
     "⚠️ Исключение в сервисе " +:+ logger.service_name self +:+ ":"
       +:+ logger.newline +:+ full].
Proof.
  intros H1 H2 Hm full.
  pose proof (proj2 (nonempty_true _) H1) as N1.
  split.
  - unfold logger.error, logger.log. rewrite Hm. cbn [logger.color_map String.eqb].
    cbn -[logger._send_telegram_alert logger.posted append].
    rewrite N1. unfold logger.posted. cbn [omap list_omap].
    apply (send_telegram_alert_configured self E _ H1 H2).
  - unfold logger.exception, logger.error, logger.log. rewrite Hm.
    cbn -[logger._send_telegram_alert logger.posted append].
    rewrite N1. unfold logger.posted.
    change (omap ?f (?a :: ?b :: ?l ++ ?r)) with (omap f (l ++ r)).
    rewrite omap_app.
    fold logger.posted.
    rewrite !(send_telegram_alert_configured self E _ H1 H2). reflexivity.
Qed.

Lemma exception_alerts_twice_witness :
  logger.posted (logger.exception logger.demo_logger logger.demo_env "boom" []).1
  = ["🚨 Ошибка в сервисе auth: boom" +:+ logger.newline +:+ "Traceback";
     "⚠️ Исключение в сервисе auth:" +:+ logger.newline +:+ "boom"
       +:+ logger.newline +:+ "Traceback"].
Proof.
  destruct (exception_alerts_twice logger.demo_logger logger.demo_env "boom" []
              "boom") as [_ H].
  - discriminate.
  - discriminate.
  - reflexivity.
  - rewrite H. vm_compute. reflexivity.
Defined.

(** X23. When Telegram cannot be reached, or answers with an error
    status, the alert leaves a single ERROR record for the file handler
    and nothing else: it is not retried and not posted again. *)
Theorem failed_alert_is_recorded_once (self : logger.ColorfulLogger)
    (E : logger.env) (message : string) :
  logger.tg_api_alert self <> "" ->
  logger.tg_chat_id_alert self <> "" ->
  let url := "https://api.telegram.org/bot" +:+ logger.tg_api_alert self
             +:+ "/sendMessage" in
  logger.telegram E url (logger.tg_chat_id_alert self) message <> SendResponse true ->
  exists text,
    logger._send_telegram_alert self E message
    = [logger.TelegramPost url (logger.tg_chat_id_alert self) message;
       logger.FileRecord "ERROR" text].
Proof.
  intros H1 H2 url Hr. unfold logger._send_telegram_alert.
  apply nonempty_true in H1, H2. rewrite H1, H2. cbn [negb orb].
  fold url.
  destruct (logger.telegram E url (logger.tg_chat_id_alert self) message)
    as [|[]]; [eauto|contradiction|eauto].
Qed.

Lemma failed_alert_is_recorded_once_witness :
  exists text,
    logger._send_telegram_alert logger.demo_logger logger.demo_env "disk full"
    = [logger.TelegramPost "https://api.telegram.org/botbot-token/sendMessage"
         "42" "disk full";
       logger.FileRecord "ERROR" text].
Proof.
  apply (failed_alert_is_recorded_once logger.demo_logger logger.demo_env
           "disk full").
  - discriminate.
  - discriminate.
  - discriminate.
Defined.

(** ** The codec reads back what it wrote *)

Lemma sextet_of_char_of_sextet (a b c d e f : bool) :
  jws.sextet_of_char (jws.char_of_sextet a b c d e f) = Some [a; b; c; d; e; f].
Proof. destruct a, b, c, d, e, f; vm_compute; reflexivity. Qed.

Lemma bytes_of_bits_byte (c : ascii) (rest : list bool) :
  jws.bytes_of_bits (jws.bits_of_byte c ++ rest) = c :: jws.bytes_of_bits rest.
Proof. destruct c. reflexivity. Qed.

Lemma bytes_of_bits_short (pad : list bool) :
  (length pad < 8)%nat -> jws.bytes_of_bits pad = [].
Proof.
  intros H. do 8 (destruct pad as [|? pad]; [reflexivity|]).
  cbn in H. lia.
Qed.

Lemma bytes_of_bits_flat (data : list ascii) (pad : list bool) :
  (length pad < 8)%nat ->
  jws.bytes_of_bits (flat_map jws.bits_of_byte data ++ pad) = data.
Proof.
  intros H. induction data as [|c data IH]; cbn [flat_map].
  - apply bytes_of_bits_short, H.
  - rewrite <- app_assoc, bytes_of_bits_byte, IH. reflexivity.
Qed.

Lemma unsextets_sextets (bits : list bool) :
  exists pad, (length pad < 6)%nat /\
              jws.unsextets (jws.sextets bits) = Some (bits ++ pad).
Proof.
  remember (length bits) as n eqn:Hn. revert bits Hn.
  induction n as [n IH] using lt_wf_ind. intros bits Hn.
  destruct bits as [|a [|b [|c [|d [|e [|f rest]]]]]].
  - exists []. split; [cbn; lia|reflexivity].
  - exists [false; false; false; false; false]. split; [cbn; lia|].
    cbn [jws.sextets jws.unsextets]. rewrite sextet_of_char_of_sextet. reflexivity.
  - exists [false; false; false; false]. split; [cbn; lia|].
    cbn [jws.sextets jws.unsextets]. rewrite sextet_of_char_of_sextet. reflexivity.
  - exists [false; false; false]. split; [cbn; lia|].
    cbn [jws.sextets jws.unsextets]. rewrite sextet_of_char_of_sextet. reflexivity.
  - exists [false; false]. split; [cbn; lia|].
    cbn [jws.sextets jws.unsextets]. rewrite sextet_of_char_of_sextet. reflexivity.
  - exists [false]. split; [cbn; lia|].
    cbn [jws.sextets jws.unsextets]. rewrite sextet_of_char_of_sextet. reflexivity.
  - destruct (IH (length rest)) with (bits := rest) as (pad & Hp & Hr).
    { subst n. cbn. lia. }
    { reflexivity. }
    exists pad. split; [exact Hp|].
    cbn [jws.sextets jws.unsextets]. rewrite sextet_of_char_of_sextet, Hr.
    reflexivity.
Qed.

Lemma base64url_roundtrip (data : list ascii) :
  jws.base64url_decode (jws.base64url_encode data) = Some data.
Proof.
  unfold jws.base64url_decode, jws.base64url_encode.
  destruct (unsextets_sextets (flat_map jws.bits_of_byte data)) as (pad & Hp & ->).
  cbn. rewrite bytes_of_bits_flat by lia. reflexivity.
Qed.

(** ** JSON text: reading back what was written *)

Lemma read_string_escape (c : ascii) (r : list ascii) :
  jws.read_string (jws.escape c ++ r) = jws.cons_char c (jws.read_string r).
Proof.
  destruct c as [[] [] [] [] [] [] [] []]; reflexivity.
Qed.

Lemma read_string_escape_string (s : string) (r : list ascii) :
  jws.read_string (jws.escape_string s ++ jws.quote :: r) = Some (s, r).
Proof.
  induction s as [|c s IH]; [reflexivity|].
  cbn [jws.escape_string]. rewrite <- app_assoc, read_string_escape, IH.
  reflexivity.
Qed.

Lemma read_uint_digits (d : Decimal.uint) (rest : list ascii) :
  no_digit_ahead rest -> jws.read_uint (jws.digits d ++ rest) = (d, rest).
Proof.
  intros H. induction d; cbn; rewrite ?IHd; auto.
Qed.

Lemma to_int_nonnil (z : Z) :
  match Z.to_int z with
  | Decimal.Pos d | Decimal.Neg d => d <> Decimal.Nil
  end.
Proof.
  destruct z as [|p|p]; cbn.
  - discriminate.
  - apply Unsigned.to_uint_nonnil.
  - apply Unsigned.to_uint_nonnil.
Qed.

Lemma json_nested_ind (P : json -> Prop) :
  P JNull ->
  (forall b, P (JBool b)) ->
  (forall z, P (JInt z)) ->
  (forall s, P (JStr s)) ->
  (forall items, Forall P items -> P (JArr items)) ->
  (forall fields, Forall (fun kv => P (snd kv)) fields -> P (JObj fields)) ->
  forall v, P v.
Proof.
  intros Hnull Hbool Hint Hstr Harr Hobj.
  exact (fix go (v : json) : P v :=
           match v with
           | JNull => Hnull
           | JBool b => Hbool b
           | JInt z => Hint z
           | JStr s => Hstr s
           | JArr items =>
               Harr items
                 ((fix all (l : list json) : Forall P l :=
                     match l with
                     | [] => List.Forall_nil P
                     | x :: r => @List.Forall_cons _ P x r (go x) (all r)
                     end) items)
           | JObj fields =>
               Hobj fields
                 ((fix all (l : list (string * json))
                     : Forall (fun kv => P (snd kv)) l :=
                     match l with
                     | [] => List.Forall_nil _
                     | kv :: r => @List.Forall_cons _ _ kv r (go (snd kv)) (all r)
                     end) fields)
           end).
Qed.

Lemma no_digit_ahead_comma (l : list ascii) : no_digit_ahead (","%char :: l).
Proof. reflexivity. Qed.

Lemma no_digit_ahead_bracket (l : list ascii) : no_digit_ahead ("]"%char :: l).
Proof. reflexivity. Qed.

Lemma no_digit_ahead_brace (l : list ascii) : no_digit_ahead ("}"%char :: l).
Proof. reflexivity. Qed.

Lemma no_digit_ahead_more (parts : list (list ascii)) (close : ascii)
    (rest : list ascii) :
  no_digit_ahead (close :: rest) ->
  no_digit_ahead (flat_map (fun q => ","%char :: q) parts ++ close :: rest).
Proof.
  intros H. destruct parts; [exact H|apply no_digit_ahead_comma].
Qed.

Lemma loads_value_int (f : nat) (z : Z) (rest : list ascii) :
  no_digit_ahead rest ->
  jws.loads_value (S f) (jws.dumps_int z ++ rest) = Some (JInt z, rest).
Proof.
  intros H. unfold jws.dumps_int.
  pose proof (to_int_nonnil z) as Hn. pose proof (DecimalZ.of_to z) as Hz.
  destruct (Z.to_int z) as [d|d].
  - assert (E : jws.loads_value (S f) (jws.digits d ++ rest)
                = match jws.read_uint (jws.digits d ++ rest) with
                  | (Decimal.Nil, _) => None
                  | (d', r') => Some (JInt (Z.of_int (Decimal.Pos d')), r')
                  end)
      by (destruct d; [contradiction|reflexivity..]).
    rewrite E, (read_uint_digits d rest H), Hz.
    destruct d; [contradiction|reflexivity..].
  - assert (E : jws.loads_value (S f) (("-"%char :: jws.digits d) ++ rest)
                = match jws.read_uint (jws.digits d ++ rest) with
                  | (Decimal.Nil, _) => None
                  | (d', r') => Some (JInt (Z.of_int (Decimal.Neg d')), r')
                  end) by reflexivity.
    rewrite E, (read_uint_digits d rest H), Hz.
    destruct d; [contradiction|reflexivity..].
Qed.

Lemma loads_value_string (f : nat) (s : string) (rest : list ascii) :
  jws.loads_value (S f) (jws.dumps_string s ++ rest) = Some (JStr s, rest).
Proof.
  unfold jws.dumps_string.
  change (jws.loads_value (S f) ((jws.quote :: jws.escape_string s ++ [jws.quote]) ++ rest))
    with (match jws.read_string ((jws.escape_string s ++ [jws.quote]) ++ rest) with
          | Some (str, r') => Some (JStr str, r')
          | None => None
          end).
  rewrite <- app_assoc. cbn [app]. rewrite read_string_escape_string. reflexivity.
Qed.

Lemma loads_more_items_dumps (xs : list json) :
  Forall reads_back xs ->
  forall fuel rest,
    (length (flat_map (fun q => ","%char :: q) (List.map jws.dumps xs)) + 1 <= fuel)%nat ->
    jws.loads_more_items fuel
      (flat_map (fun q => ","%char :: q) (List.map jws.dumps xs) ++ "]"%char :: rest)
    = Some (xs, rest).
Proof.
  induction 1 as [|x xs Hx _ IH]; intros fuel rest Hf.
  - destruct fuel; [cbn in Hf; lia|reflexivity].
  - cbn [List.map] in *.
    set (more := flat_map (fun q => ","%char :: q) (List.map jws.dumps xs)) in *.
    change (flat_map (fun q => ","%char :: q) (jws.dumps x :: List.map jws.dumps xs))
      with ((","%char :: jws.dumps x) ++ more) in *.
    rewrite length_app in Hf. cbn [length] in Hf.
    destruct fuel as [|f]; [lia|].
    rewrite <- app_assoc. cbn [app].
    change (jws.loads_more_items (S f) (","%char :: ?r))
      with (match jws.loads_value f r with
            | Some (y, r1) =>
                match jws.loads_more_items f r1 with
                | Some (ys, r2) => Some (y :: ys, r2)
                | None => None
                end
            | None => None
            end).
    rewrite Hx, IH; [reflexivity|lia|lia|].
    apply no_digit_ahead_more, no_digit_ahead_bracket.
Qed.

Lemma loads_member_dumps (kv : string * json) :
  reads_back (snd kv) ->
  forall f rest,
    (length (jws.dumps (snd kv)) <= f)%nat ->
    no_digit_ahead rest ->
    jws.loads_member (S f) (member_text kv ++ rest) = Some (kv, rest).
Proof.
  intros Hv f rest Hf Hr. destruct kv as [k v]. unfold member_text, jws.dumps_string.
  cbn [fst snd] in *.
  change (jws.loads_member (S f)
            (((jws.quote :: jws.escape_string k ++ [jws.quote]) ++ ":"%char :: jws.dumps v)
             ++ rest))
    with (match jws.read_string
                  (((jws.escape_string k ++ [jws.quote]) ++ ":"%char :: jws.dumps v) ++ rest)
          with
          | Some (k', r1) =>
              match jws.strip_prefix (jws.chars ":") r1 with
              | Some r2 =>
                  match jws.loads_value f r2 with
                  | Some (v', r3) => Some ((k', v'), r3)
                  | None => None
                  end
              | None => None
              end
          | None => None
          end).
  rewrite <- !app_assoc. cbn [app]. rewrite read_string_escape_string.
  cbn [jws.strip_prefix jws.chars list_ascii_of_string].
  change (Ascii.eqb ":" ":") with true. cbv iota.
  rewrite (Hv f rest Hf Hr). reflexivity.
Qed.

Lemma loads_more_members_dumps (kvs : list (string * json)) :
  Forall (fun kv => reads_back (snd kv)) kvs ->
  forall fuel rest,
    (length (flat_map (fun q => ","%char :: q) (List.map member_text kvs)) + 1
     <= fuel)%nat ->
    jws.loads_more_members fuel
      (flat_map (fun q => ","%char :: q) (List.map member_text kvs) ++ "}"%char :: rest)
    = Some (kvs, rest).
Proof.
  induction 1 as [|kv kvs Hkv _ IH]; intros fuel rest Hf.
  - destruct fuel; [cbn in Hf; lia|reflexivity].
  - cbn [List.map] in *.
    set (more := flat_map (fun q => ","%char :: q) (List.map member_text kvs)) in *.
    change (flat_map (fun q => ","%char :: q) (member_text kv :: List.map member_text kvs))
      with ((","%char :: member_text kv) ++ more) in *.
    rewrite length_app in Hf. cbn [length] in Hf.
    assert (Hm : (length (member_text kv) = length (jws.dumps_string (fst kv))
                  + S (length (jws.dumps (snd kv))))%nat).
    { unfold member_text. rewrite length_app. reflexivity. }
    destruct fuel as [|[|f]]; [lia|lia|].
    rewrite <- app_assoc. cbn [app].
    change (jws.loads_more_members (S (S f)) (","%char :: ?r))
      with (match jws.loads_member (S f) r with
            | Some (y, r1) =>
                match jws.loads_more_members (S f) r1 with
                | Some (ys, r2) => Some (y :: ys, r2)
                | None => None
                end
            | None => None
            end).
    rewrite (loads_member_dumps kv Hkv), IH; [reflexivity|lia|lia|].
    apply no_digit_ahead_more, no_digit_ahead_brace.
Qed.

Lemma dumps_reads_back (v : json) : reads_back v.
Proof.
  induction v as [|b|z|s|items IH|fields IH] using json_nested_ind;
    intros fuel rest Hf Hr.
  - destruct fuel; [cbn in Hf; lia|reflexivity].
  - destruct fuel; [destruct b; cbn in Hf; lia|]. destruct b; reflexivity.
  - destruct fuel as [|f].
    { exfalso. revert Hf. cbn [jws.dumps]. unfold jws.dumps_int.
      pose proof (to_int_nonnil z) as Hn.
      destruct (Z.to_int z) as [d|d]; destruct d; try contradiction; cbn; lia. }
    apply loads_value_int, Hr.
  - destruct fuel as [|f]; [cbn in Hf; lia|]. apply loads_value_string.
  - cbn [jws.dumps] in *. destruct items as [|x xs].
    + destruct fuel as [|[|f]]; [cbn in Hf; lia|reflexivity|reflexivity].
    + cbn [List.map jws.commas] in *.
      set (more := flat_map (fun q => ","%char :: q) (List.map jws.dumps xs)) in *.
      cbn [length] in Hf. rewrite !length_app in Hf. cbn [length] in Hf.
      destruct fuel as [|f]; [lia|].
      rewrite <- !app_assoc. cbn [app].
      change (jws.loads_value (S f) ("["%char :: ?r))
        with (match jws.loads_value f r with
              | Some (y, r1) =>
                  match jws.loads_more_items f r1 with
                  | Some (ys, r2) => Some (JArr (y :: ys), r2)
                  | None => None
                  end
              | None => pair (JArr []) <$> jws.strip_prefix (jws.chars "]") r
              end).
      inversion IH as [|? ? Hx Hxs]; subst.
      rewrite <- !app_assoc. cbn [app].
      rewrite Hx, (loads_more_items_dumps xs Hxs); [reflexivity|fold more; lia|lia|].
      apply no_digit_ahead_more, no_digit_ahead_bracket.
  - cbn [jws.dumps] in *. destruct fields as [|kv kvs].
    + destruct fuel as [|[|f]]; [cbn in Hf; lia|reflexivity|reflexivity].
    + cbn [List.map jws.commas] in *.
      fold (member_text kv) in *.
      change (List.map (fun kv0 : string * json =>
                          jws.dumps_string (fst kv0) ++ ":"%char :: jws.dumps (snd kv0)) kvs)
        with (List.map member_text kvs) in *.
      set (more := flat_map (fun q => ","%char :: q) (List.map member_text kvs)) in *.
      cbn [length] in Hf. rewrite !length_app in Hf. cbn [length] in Hf.
      assert (Hm : (length (member_text kv) = length (jws.dumps_string (fst kv))
                    + S (length (jws.dumps (snd kv))))%nat).
      { unfold member_text. rewrite length_app. reflexivity. }
      destruct fuel as [|[|f]]; [lia|lia|].
      rewrite <- !app_assoc. cbn [app].
      change (jws.loads_value (S (S f)) ("{"%char :: ?r))
        with (match jws.loads_member (S f) r with
              | Some (y, r1) =>
                  match jws.loads_more_members (S f) r1 with
                  | Some (ys, r2) => Some (JObj (y :: ys), r2)
                  | None => None
                  end
              | None => pair (JObj []) <$> jws.strip_prefix (jws.chars "}") r
              end).
      inversion IH as [|? ? Hx Hxs]; subst.
      rewrite <- !app_assoc. cbn [app].
      rewrite (loads_member_dumps kv Hx), (loads_more_members_dumps kvs Hxs);
        [reflexivity|fold more; lia|lia|].
      apply no_digit_ahead_more, no_digit_ahead_brace.
Qed.

Lemma loads_dumps (v : json) : jws.loads (jws.dumps v) = Some v.
Proof.
  unfold jws.loads.
  pose proof (dumps_reads_back v (S (length (jws.dumps v))) []) as H.
  rewrite app_nil_r in H. rewrite H; [reflexivity|lia|reflexivity].
Qed.

(** ** JWS: verifying what was signed *)

Lemma split_first_app (a b : list ascii) :
  forallb (fun c => negb (Ascii.eqb c jws.dot)) a = true ->
  jws.split_first (a ++ jws.dot :: b) = Some (a, b).
Proof.
  induction a as [|c a IH]; intros H; [reflexivity|].
  cbn in H. apply andb_true_iff in H as [Hc Ha].
  cbn [app jws.split_first]. apply negb_true_iff in Hc. rewrite Hc, (IH Ha).
  reflexivity.
Qed.

Lemma split_last_app (a b : list ascii) :
  forallb (fun c => negb (Ascii.eqb c jws.dot)) b = true ->
  jws.split_last (a ++ jws.dot :: b) = Some (a, b).
Proof.
  intros H. unfold jws.split_last.
  rewrite rev_app_distr. cbn [rev]. rewrite <- app_assoc. cbn [app].
  rewrite split_first_app, !rev_involutive; [reflexivity|].
  rewrite forallb_forall in *. intros c Hc. apply H. apply in_rev, Hc.
Qed.

Lemma sextets_no_dot (bits : list bool) :
  forallb (fun c => negb (Ascii.eqb c jws.dot)) (jws.sextets bits) = true.
Proof.
  assert (Hc : forall a b c d e f,
             negb (Ascii.eqb (jws.char_of_sextet a b c d e f) jws.dot) = true)
    by (intros [] [] [] [] [] []; reflexivity).
  remember (length bits) as n eqn:Hn. revert bits Hn.
  induction n as [n IH] using lt_wf_ind. intros bits Hn.
  destruct bits as [|a [|b [|c [|d [|e [|f rest]]]]]];
    cbn [jws.sextets forallb]; rewrite ?Hc; try reflexivity.
  apply (IH (length rest)); [subst n; cbn; lia|reflexivity].
Qed.

Lemma base64url_no_dot (data : list ascii) :
  forallb (fun c => negb (Ascii.eqb c jws.dot)) (jws.base64url_encode data) = true.
Proof. apply sextets_no_dot. Qed.

Lemma loads_dict_dumps_dict (d : dict) :
  jws.loads_dict (jws.dumps_dict d) = Some d.
Proof.
  unfold jws.loads_dict, jws.dumps_dict. rewrite loads_dumps.
  f_equal. symmetry. rewrite <- (list_to_map_to_list d) at 1.
  apply list_to_map_proper.
  - apply NoDup_fst_map_to_list.
  - symmetry. apply reverse_Permutation.
Qed.

Lemma verify_sign (hmac : list ascii -> list ascii -> list ascii) (claims : dict)
    (key : string) :
  jws.verify hmac (jws.sign hmac claims key) key = Some claims.
Proof.
  unfold jws.verify, jws.sign, jws.chars, jws.text.
  assert (Hh : jws.header !! "alg" = Some (JStr "HS256")) by (vm_compute; reflexivity).
  revert Hh. generalize jws.header. intros hdr Hh.
  rewrite list_ascii_of_string_of_list_ascii.
  rewrite split_last_app by apply base64url_no_dot. cbn [mbind option_bind].
  rewrite split_first_app by apply base64url_no_dot. cbn [mbind option_bind].
  rewrite !base64url_roundtrip. cbn [mbind option_bind].
  rewrite !loads_dict_dumps_dict. cbn [mbind option_bind].
  rewrite (bool_decide_eq_true_2 _ Hh). cbn [negb].
  case_bool_decide; [reflexivity|contradiction].
Qed.

Lemma jws_lib_sign_verify_roundtrip hmac parse_int verify_hash :
  sign_verify_roundtrip (jws.lib hmac parse_int verify_hash).
Proof.
  intros claims key t. cbn [jws_sign jws_verify jws.lib].
  intros [= <-]. apply verify_sign.
Qed.

(** ** Encoding and decoding with the codec *)



